(** * cryptos/keys.py: secret key generation and the SEC codec of public keys

    A shallow embedding of [src/cryptos/keys.py].  Python integers are [Z],
    [bytes] values are lists of [byte], exceptions are an error result, and
    the entropy sources read an explicit world of oracle streams. *)

From Stdlib Require Import ZArith List Lia Bool String Ascii.
From Stdlib Require Import Zpow_facts Zcong Zmod.ZmodInv.
From Stdlib Require DecimalString DecimalPos DecimalZ.
From coqutil Require Import Byte Word.LittleEndianList.
Import ListNotations.

#[local] Open Scope Z_scope.

(** ** Exceptions and results *)

Inductive exn : Set :=
| AssertionError
| IndexError
| ValueError
| OverflowError
| UnicodeEncodeError
| EOFError
| KeyError.

Inductive result (A : Type) : Type :=
| Ok (a : A)
| Raise (e : exn).

Arguments Ok {A} a.
Arguments Raise {A} e.

Definition bind {A B : Type} (r : result A) (k : A -> result B) : result B :=
  match r with
  | Ok a => k a
  | Raise e => Raise e
  end.

Notation "x <- r ;; k" := (bind r (fun x => k))
  (at level 61, r at next level, right associativity).

(** ** Python built-ins used by the module *)

Module Py.

(** [int.from_bytes(b, 'big')] *)
Definition from_bytes (b : list byte) : Z := le_combine (rev b).

(** [n.to_bytes(len, 'big')]: a negative [n] or one that does not fit in
    [len] bytes raises OverflowError. *)
Definition to_bytes (n : Z) (len : nat) : result (list byte) :=
  if n <? 0 then Raise OverflowError
  else if 2 ^ (Z.of_nat len * 8) <=? n then Raise OverflowError
  else Ok (rev (le_split len n)).

(** [b[lo:hi]] for [0 <= lo <= hi] and [b[lo:]] *)
Definition slice (lo hi : nat) (b : list byte) : list byte :=
  firstn (hi - lo) (skipn lo b).

Definition slice_from (lo : nat) (b : list byte) : list byte := skipn lo b.

(** [pow(base, e, m)]: a zero modulus raises ValueError; a negative
    exponent goes through the modular inverse of the base, which must
    exist; the result has the sign of [m]. *)
Definition pow (base e m : Z) : result Z :=
  if m =? 0 then Raise ValueError
  else if e <? 0 then
    if Z.gcd base m =? 1
    then Ok ((Z.invmod base (Z.abs m) ^ (- e)) mod m)
    else Raise ValueError
  else Ok ((base ^ e) mod m).

Definition hex_digit (c : ascii) : option Z :=
  let n := Z.of_N (N_of_ascii c) in
  if (48 <=? n) && (n <=? 57) then Some (n - 48)
  else if (97 <=? n) && (n <=? 102) then Some (n - 87)
  else if (65 <=? n) && (n <=? 70) then Some (n - 55)
  else None.

Definition is_space (c : ascii) : bool :=
  let n := Z.of_N (N_of_ascii c) in
  (n =? 32) || ((9 <=? n) && (n <=? 13)).

(** [bytes.fromhex(s)]: two hexadecimal digits per byte, white space
    allowed between bytes, anything else raises ValueError. *)
Fixpoint fromhex (s : string) : result (list byte) :=
  match s with
  | EmptyString => Ok []
  | String c s' =>
      if is_space c then fromhex s'
      else match s' with
           | EmptyString => Raise ValueError
           | String d s'' =>
               match hex_digit c, hex_digit d with
               | Some h, Some l =>
                   rest <- fromhex s'' ;; Ok (byte.of_Z (16 * h + l) :: rest)
               | _, _ => Raise ValueError
               end
           end
  end.

(** [str(n)] for an integer *)
Definition str (n : Z) : string :=
  DecimalString.NilZero.string_of_int (Z.to_int n).

(** [s.encode('ascii')]: a character outside 0..127 raises
    UnicodeEncodeError. *)
Fixpoint encode_ascii (s : string) : result (list byte) :=
  match s with
  | EmptyString => Ok []
  | String c s' =>
      if N_of_ascii c <? 128
      then rest <- encode_ascii s' ;; Ok (byte_of_ascii c :: rest)
      else Raise UnicodeEncodeError
  end%N.

End Py.

(** ** Curves and points

    [curves.py] and [bitcoin.py] are collaborators of this module.  The code
    only builds points with [Point(curve, x, y)] / [cls(curve, x, y)], reads
    their [curve], [x] and [y] attributes, and reads the modulus [p] of
    [BITCOIN.gen.G.curve]. *)

(** Modelled from the spec: the class Curve of curves.py is missing; the
    spec's CurveParameters supply the prime modulus [p], the only field this
    module reads. *)
Record Curve : Set := mkCurve { p : Z }.

(** The two classes an instance built by this module can have. *)
Inductive pyclass : Set := Point_cls | PublicKey_cls.

(** Modelled from the spec: the class Point of curves.py is missing; this
    module builds its instances from a curve and two integers and reads them
    back as [curve], [x] and [y].  An instance also knows the class it was
    constructed with, [Point] or its subclass [PublicKey]. *)
Record Point : Set := mkPoint {
  class_of : pyclass;
  curve : Curve;
  x : Z;
  y : Z
}.

(** Modelled from the spec: the equality of points of curves.py is missing;
    in the spec's data model a CurvePoint is a pair of coordinates plus a
    reference to the curve parameters, and a PublicKey has no additional
    state beyond the point. *)
Definition same_point (q r : Point) : Prop :=
  curve q = curve r /\ x q = x r /\ y q = y r.

(** The curve equation of the spec, [y^2 = x^3 + 7 (mod p)]. *)
Definition satisfies_equation (c : Curve) (xv yv : Z) : Prop :=
  (yv * yv) mod p c = (xv ^ 3 + 7) mod p c.

Definition on_curve (c : Curve) (q : Point) : Prop :=
  curve q = c /\ satisfies_equation c (x q) (y q).

Section Keys.

(** [BITCOIN.gen.G.curve], a process-wide constant of bitcoin.py. *)
Variable G_curve : Curve.

Definition byte_is (b : byte) (n : Z) : bool := byte.unsigned b =? n.

(** ** class PublicKey(Point) *)

(** [PublicKey.from_point] *)
Definition from_point (cls : pyclass) (pt : Point) : Point :=
  mkPoint cls (curve pt) (x pt) (y pt).

(** [PublicKey.decode], a classmethod: [cls] is the class it is called on. *)
Definition decode (cls : pyclass) (b : list byte) : result Point :=
  match b with
  | [] => Raise IndexError
  | b0 :: _ =>
      if byte_is b0 4 then
        let xv := Py.from_bytes (Py.slice 1 33 b) in
        let yv := Py.from_bytes (Py.slice 33 65 b) in
        Ok (mkPoint Point_cls G_curve xv yv)
      else if byte_is b0 2 || byte_is b0 3 then
        let is_even := byte_is b0 2 in
        let xv := Py.from_bytes (Py.slice_from 1 b) in
        let pv := p G_curve in
        x3 <- Py.pow xv 3 pv ;;
        let y2 := (x3 + 7) mod pv in
        y0 <- Py.pow y2 ((pv + 1) / 4) pv ;;
        let yv := if Bool.eqb (y0 mod 2 =? 0) is_even then y0 else pv - y0 in
        Ok (mkPoint cls G_curve xv yv)
      else Raise AssertionError
  end.

(** [PublicKey.encode] *)
Definition encode (self : Point) (compressed : bool) : result (list byte) :=
  if compressed then
    let prefix := if y self mod 2 =? 0 then [Byte.x02] else [Byte.x03] in
    xb <- Py.to_bytes (x self) 32 ;;
    Ok (prefix ++ xb)
  else
    xb <- Py.to_bytes (x self) 32 ;;
    yb <- Py.to_bytes (y self) 32 ;;
    Ok ([Byte.x04] ++ xb ++ yb).

End Keys.

(** ** Entropy sources and secret keys *)

(** What the process reads from outside: the successive results of
    [os.urandom(32)], the successive lines [input] returns ([None] once the
    input is exhausted) and the successive readings
    [int(time.time() * 1000000)] of the clock. *)
Record World : Type := mkWorld {
  urandom : nat -> list byte;
  stdin : nat -> option string;
  clock : nat -> Z
}.

(** How much of each stream has been consumed so far. *)
Record Cursor : Set := mkCursor {
  n_urandom : nat;
  n_stdin : nat;
  n_clock : nat
}.

(** Computations that read the world and may raise. *)
Definition M (A : Type) : Type := Cursor -> result (A * Cursor).

Definition ret {A : Type} (a : A) : M A := fun c => Ok (a, c).

Definition mbind {A B : Type} (m : M A) (k : A -> M B) : M B :=
  fun c => match m c with
           | Ok (a, c') => k a c'
           | Raise e => Raise e
           end.

Definition lift {A : Type} (r : result A) : M A :=
  fun c => match r with
           | Ok a => Ok (a, c)
           | Raise e => Raise e
           end.

Notation "x <~ m ;; k" := (mbind m (fun x => k))
  (at level 61, m at next level, right associativity).

Section SecretKeys.

(** The hash primitive of [sha256.py], a collaborator. *)
Variable sha256 : list byte -> list byte.
Variable w : World.

(** [os.urandom(32)] *)
Definition os_urandom : M (list byte) :=
  fun c => Ok (urandom w (n_urandom c),
               mkCursor (S (n_urandom c)) (n_stdin c) (n_clock c)).

(** [input(prompt)] *)
Definition input (prompt : string) : M string :=
  fun c => match stdin w (n_stdin c) with
           | Some line => Ok (line, mkCursor (n_urandom c) (S (n_stdin c)) (n_clock c))
           | None => Raise EOFError
           end.

(** [int(time.time() * 1000000)] *)
Definition time_micros : M Z :=
  fun c => Ok (clock w (n_clock c),
               mkCursor (n_urandom c) (n_stdin c) (S (n_clock c))).

Definition random_bytes_os : M (list byte) := os_urandom.

(** The body of [for i in range(5)], run for the [todo] remaining values
    of [i]. *)
Fixpoint collect_words (i : Z) (todo : nat) (entropy : string) : M string :=
  match todo with
  | O => ret entropy
  | S todo' =>
      s <~ input ("Enter some word #" ++ Py.str (i + 1) ++ "/5: ")%string ;;
      t <~ time_micros ;;
      collect_words (i + 1) todo' (entropy ++ (s ++ "|" ++ Py.str t ++ "|"))%string
  end.

Definition random_bytes_user : M (list byte) :=
  entropy <~ collect_words 0 5 ""%string ;;
  b <~ lift (Py.encode_ascii entropy) ;;
  ret (sha256 b).

Definition mastering_bitcoin_bytes : M (list byte) :=
  let sk := "3aba4162c7251c891207b747840551a71939b0de081f85c4e44cf7c13e41daa6"%string in
  lift (Py.fromhex sk).

(** The dict of [gen_secret_key]. *)
Definition bytes_fns : list (string * M (list byte)) :=
  [ ("os"%string, random_bytes_os);
    ("user"%string, random_bytes_user);
    ("mastering"%string, mastering_bitcoin_bytes) ].

Fixpoint lookup {A : Type} (key : string) (d : list (string * A)) : option A :=
  match d with
  | [] => None
  | (k, v) :: d' => if String.eqb key k then Some v else lookup key d'
  end.

(** [source in ['os', 'user', 'mastering']] *)
Definition recognized (source : string) : bool :=
  existsb (String.eqb source) ["os"; "user"; "mastering"]%string.

(** The [while True] loop.  [fuel] bounds the number of iterations that are
    run; [None] means that the loop is still running after that many. *)
Fixpoint sample (fuel : nat) (bytes_fn : M (list byte)) (n : Z) (c : Cursor)
  : option (result (Z * Cursor)) :=
  match fuel with
  | O => None
  | S fuel' =>
      match bytes_fn c with
      | Raise e => Some (Raise e)
      | Ok (bs, c') =>
          let key := Py.from_bytes bs in
          if (1 <=? key) && (key <? n)
          then Some (Ok (key, c'))
          else sample fuel' bytes_fn n c'
      end
  end.

Definition gen_secret_key (fuel : nat) (n : Z) (source : string) (c : Cursor)
  : option (result (Z * Cursor)) :=
  if negb (recognized source) then Some (Raise AssertionError)
  else match lookup source bytes_fns with
       | None => Some (Raise KeyError)
       | Some bytes_fn => sample fuel bytes_fn n c
       end.

(** The call returns when some number of iterations is enough. *)
Definition returns (n : Z) (source : string) (c : Cursor)
           (r : result (Z * Cursor)) : Prop :=
  exists fuel, gen_secret_key fuel n source c = Some r.

Definition loops_forever (n : Z) (source : string) (c : Cursor) : Prop :=
  forall fuel, gen_secret_key fuel n source c = None.

End SecretKeys.

(** The secret key of the worked example the fixed test vector comes from. *)
Definition mastering_sk : Z :=
  0x3aba4162c7251c891207b747840551a71939b0de081f85c4e44cf7c13e41daa6.

(** ** Key pairs *)

Section KeyPairs.

(** [BITCOIN.gen.n], a constant of bitcoin.py. *)
Variable G_order : Z.

(** [sk * BITCOIN.gen.G], the scalar multiplication of curves.py, a
    collaborator: whatever point it returns, or whatever it raises. *)
Variable G_times : Z -> result Point.

(** The built-in [int(s, 16)], left abstract: it returns an integer or
    raises. *)
Variable int_base16 : string -> result Z.

Variable sha256 : list byte -> list byte.
Variable w : World.

(** [PublicKey.from_sk]: [sk] is an [int] or a [str], anything else is
    excluded by the assertion on its type. *)
Definition from_sk (cls : pyclass) (sk : Z + string) : result Point :=
  k <- match sk with
       | inr s => int_base16 s
       | inl k => Ok k
       end ;;
  pk <- G_times k ;;
  Ok (from_point cls pk).

(** [gen_key_pair]; [fuel] bounds the iterations of the sampling loop. *)
Definition gen_key_pair (fuel : nat) (source : string) (c : Cursor)
  : option (result ((Z * Point) * Cursor)) :=
  match gen_secret_key sha256 w fuel G_order source c with
  | None => None
  | Some (Raise e) => Some (Raise e)
  | Some (Ok (sk, c')) =>
      Some (pk <- from_sk PublicKey_cls (inl sk) ;; Ok ((sk, pk), c'))
  end.

End KeyPairs.

(** A string without any character outside 0..127. *)
Fixpoint is_ascii (s : string) : bool :=
  match s with
  | EmptyString => true
  | String ch s' => (N_of_ascii ch <? 128)%N && is_ascii s'
  end.

(** The cursor after [k] more lines and [k] more clock readings. *)
Definition after_words (c : Cursor) (k : nat) : Cursor :=
  mkCursor (n_urandom c) (k + n_stdin c) (k + n_clock c).

(** The text the interactive source gathers from the next [todo] lines and
    clock readings: each line, a bar, the reading in decimal, a bar. *)
Fixpoint words_text (w : World) (c : Cursor) (todo : nat) : string :=
  match todo with
  | O => EmptyString
  | S todo' =>
      let line := match stdin w (n_stdin c) with
                  | Some l => l
                  | None => EmptyString
                  end in
      (line ++ "|" ++ Py.str (clock w (n_clock c)) ++ "|"
            ++ words_text w (after_words c 1) todo')%string
  end.

(** A string without the bar that separates the pieces of that text. *)
Fixpoint no_bar (s : string) : bool :=
  match s with
  | EmptyString => true
  | String ch s' => negb (Ascii.eqb ch "|") && no_bar s'
  end.

(** An entropy function that rejects the first attempt of
    [counting_world] and accepts the second. *)
Definition second_attempt (b : list byte) : list byte :=
  match rev b with
  | _ :: d :: _ => if byte_is d 52 then [Byte.x00] else [Byte.x01]
  | _ => []
  end.

(** The bytes of an ASCII string. *)
Definition ascii_bytes (s : string) : list byte :=
  map byte_of_ascii (list_ascii_of_string s).

(** ** Definitions used by the statements *)

(** The value [decode] computes for the [y] coordinate of a compressed key
    with modulus [pv], abscissa [xv] and evenness flag [is_even]. *)
Definition candidate_root (pv xv : Z) : Z :=
  (((xv ^ 3) mod pv + 7) mod pv) ^ ((pv + 1) / 4) mod pv.

Definition recovered_y (pv xv : Z) (is_even : bool) : Z :=
  let y0 := candidate_root pv xv in
  if Bool.eqb (y0 mod 2 =? 0) is_even then y0 else pv - y0.

(** Fast evaluation of the recovered ordinate, by repeated squaring. *)
Definition recovered_y_fast (pv xv : Z) (is_even : bool) : Z :=
  let y2 := (Zpow_mod xv 3 pv + 7) mod pv in
  let y0 := Zpow_mod y2 ((pv + 1) / 4) pv in
  if Bool.eqb (y0 mod 2 =? 0) is_even then y0 else pv - y0.

(** ** Concrete curves and keys *)

(** Modelled from the spec: bitcoin.py is missing; the spec names the target
    curve as the Bitcoin curve secp256k1, whose prime modulus is
    2^256 - 2^32 - 977. *)
Definition secp256k1 : Curve := mkCurve (2 ^ 256 - 2 ^ 32 - 977).

(** The generator of secp256k1, as a public key. *)
Definition generator_key : Point :=
  mkPoint PublicKey_cls secp256k1
    0x79be667ef9dcbbac55a06295ce870b07029bfcdb2dce28d959f2815b16f81798
    0x483ada7726a3c4655da4fbfc0e1108a8fd17b448a68554199c47d08ffb10d4b8.

(** A small curve with the same shape: [y^2 = x^3 + 7] modulo 11. *)
Definition curve11 : Curve := mkCurve 11.

Definition key11 : Point := mkPoint PublicKey_cls curve11 2 9.

(** A 64-byte buffer with leading byte 0x04. *)
Definition short_uncompressed : list byte := Byte.x04 :: repeat Byte.x01 63.

(** The order of the group of secp256k1, the upper bound [gen_key_pair]
    passes. *)
Definition secp256k1_order : Z :=
  0xfffffffffffffffffffffffffffffffebaaedce6af48a03bbfd25e8cd0364141.

(** A world whose operating system first draws 0, then 1, then 2, ... *)
Definition counting_world : World :=
  mkWorld (fun i => rev (le_split 32 (Z.of_nat i)))
          (fun _ => Some "word"%string)
          (fun i => 1700000000000000 + Z.of_nat i).

Definition start : Cursor := mkCursor 0 0 0.

(** The world of [counting_world] one day later. *)
Definition later_world : World :=
  mkWorld (urandom counting_world) (stdin counting_world)
          (fun i => clock counting_world i + 86400000000).

Definition sha256_stub_result : list byte := [Byte.x00].

(** * Properties *)

(** ** Integers and bytes *)

Lemma to_bytes_ok (n : Z) (len : nat) :
  0 <= n < 2 ^ (Z.of_nat len * 8) ->
  Py.to_bytes n len = Ok (rev (le_split len n)).
Proof.
  intros Hn. unfold Py.to_bytes.
  destruct (Z.ltb_spec n 0); [lia|].
  destruct (Z.leb_spec (2 ^ (Z.of_nat len * 8)) n); [lia|]. reflexivity.
Qed.

Lemma from_bytes_big_endian (n : Z) (len : nat) :
  0 <= n < 2 ^ (Z.of_nat len * 8) ->
  Py.from_bytes (rev (le_split len n)) = n.
Proof.
  intros Hn. unfold Py.from_bytes.
  rewrite rev_involutive, le_combine_split. apply Z.mod_small. exact Hn.
Qed.

Lemma length_big_endian (n : Z) (len : nat) :
  List.length (rev (le_split len n)) = len.
Proof. rewrite length_rev. apply length_le_split. Qed.

Lemma byte_is_true (b : byte) (n : Z) : byte_is b n = true -> b = byte.of_Z n.
Proof.
  unfold byte_is. intros H. apply Z.eqb_eq in H.
  rewrite <- H. symmetry. apply byte.of_Z_unsigned.
Qed.

Lemma slice_x (h : byte) (xb rest : list byte) :
  List.length xb = 32%nat -> Py.slice 1 33 (h :: xb ++ rest) = xb.
Proof.
  intros L. unfold Py.slice. change (33 - 1)%nat with 32%nat.
  change (skipn 1 (h :: xb ++ rest)) with (xb ++ rest).
  rewrite <- L, firstn_app, Nat.sub_diag, firstn_all. cbn [firstn].
  apply app_nil_r.
Qed.

Lemma slice_y (h : byte) (xb yb : list byte) :
  List.length xb = 32%nat -> List.length yb = 32%nat ->
  Py.slice 33 65 (h :: xb ++ yb) = yb.
Proof.
  intros Lx Ly. unfold Py.slice. change (65 - 33)%nat with 32%nat.
  change (skipn 33 (h :: xb ++ yb)) with (skipn 32 (xb ++ yb)).
  assert (E : skipn 32 (xb ++ yb) = yb).
  { rewrite <- Lx, skipn_app, skipn_all, Nat.sub_diag. reflexivity. }
  rewrite E, <- Ly. apply firstn_all.
Qed.

Lemma even_mod2 (v : Z) : Z.even v = (v mod 2 =? 0).
Proof. rewrite Zmod_even. destruct (Z.even v); reflexivity. Qed.

(** [pow] with a non-negative exponent and a non-zero modulus. *)
Lemma pow_nonneg (base e m : Z) :
  0 <= e -> m <> 0 -> Py.pow base e m = Ok ((base ^ e) mod m).
Proof.
  intros He Hm. unfold Py.pow.
  destruct (Z.eqb_spec m 0); [contradiction|].
  destruct (Z.ltb_spec e 0); [lia|]. reflexivity.
Qed.

Lemma decode_compressed (G : Curve) (cls : pyclass) (b0 : byte) (t : list byte) :
  0 < p G -> b0 = Byte.x02 \/ b0 = Byte.x03 ->
  decode G cls (b0 :: t) =
  Ok (mkPoint cls G (Py.from_bytes t)
        (recovered_y (p G) (Py.from_bytes t) (byte_is b0 2))).
Proof.
  intros Hp Hb. unfold decode.
  assert (H4 : byte_is b0 4 = false) by (destruct Hb; subst; reflexivity).
  assert (H23 : byte_is b0 2 || byte_is b0 3 = true)
    by (destruct Hb; subst; reflexivity).
  rewrite H4, H23. unfold Py.slice_from. cbn [skipn].
  rewrite pow_nonneg by lia. cbn [bind].
  rewrite pow_nonneg; [reflexivity | | lia].
  apply Z.div_pos; lia.
Qed.

(** The only exception of [pow] is ValueError. *)
Lemma pow_raises (base e m : Z) (err : exn) :
  Py.pow base e m = Raise err -> err = ValueError.
Proof.
  unfold Py.pow.
  destruct (m =? 0); [congruence|].
  destruct (e <? 0); [|discriminate].
  destruct (Z.gcd base m =? 1); [discriminate | congruence].
Qed.

(** Past the prefix check, only the modular powers can fail. *)
Lemma decode_compressed_raises
      (G : Curve) (cls : pyclass) (b0 : byte) (t : list byte) (err : exn) :
  b0 = Byte.x02 \/ b0 = Byte.x03 ->
  decode G cls (b0 :: t) = Raise err -> err = ValueError.
Proof.
  intros Hb. unfold decode.
  assert (H4 : byte_is b0 4 = false) by (destruct Hb; subst; reflexivity).
  assert (H23 : byte_is b0 2 || byte_is b0 3 = true)
    by (destruct Hb; subst; reflexivity).
  rewrite H4, H23.
  destruct (Py.pow (Py.from_bytes (Py.slice_from 1 (b0 :: t))) 3 (p G))
    as [x3|e1] eqn:E1; cbn [bind].
  - destruct (Py.pow ((x3 + 7) mod p G) ((p G + 1) / 4) (p G))
      as [y0|e2] eqn:E2; cbn [bind]; [discriminate|].
    intros H. injection H as <-. eapply pow_raises. exact E2.
  - intros H. injection H as <-. eapply pow_raises. exact E1.
Qed.

Lemma decode_uncompressed (G : Curve) (cls : pyclass) (t : list byte) :
  decode G cls (Byte.x04 :: t) =
  Ok (mkPoint Point_cls G (Py.from_bytes (Py.slice 1 33 (Byte.x04 :: t)))
        (Py.from_bytes (Py.slice 33 65 (Byte.x04 :: t)))).
Proof. reflexivity. Qed.

Lemma recovered_parity (pv xv : Z) (is_even : bool) :
  0 < pv -> pv mod 2 = 1 ->
  (recovered_y pv xv is_even mod 2 =? 0) = is_even.
Proof.
  intros Hp Hodd. unfold recovered_y.
  set (y0 := candidate_root pv xv).
  destruct (Bool.eqb (y0 mod 2 =? 0) is_even) eqn:E.
  - apply Bool.eqb_prop in E. exact E.
  - apply Bool.eqb_false_iff in E.
    assert (Hy : (pv - y0) mod 2 = (1 - y0 mod 2) mod 2).
    { rewrite Zminus_mod, Hodd. reflexivity. }
    pose proof (Z.mod_pos_bound y0 2 ltac:(lia)) as B.
    destruct is_even.
    + destruct (Z.eqb_spec (y0 mod 2) 0); [congruence|].
      apply Z.eqb_eq. rewrite Hy.
      replace (y0 mod 2) with 1 by lia. reflexivity.
    + destruct (Z.eqb_spec (y0 mod 2) 0) as [e|]; [|congruence].
      apply Z.eqb_neq. rewrite Hy, e. cbn. lia.
Qed.

(** ** The square root modulo a prime congruent to 3 modulo 4 *)

Section SquareRoot.

Variable pv : Z.
Hypothesis pv_prime : Z.prime pv.
Hypothesis pv_3mod4 : pv mod 4 = 3.

Let pv_pos : 2 <= pv := Z.prime_ge_2 pv pv_prime.

Lemma quarter_exponent : 4 * ((pv + 1) / 4) = pv + 1.
Proof.
  pose proof (Z.div_mod (pv + 1) 4 ltac:(lia)) as D.
  assert ((pv + 1) mod 4 = 0).
  { rewrite <- Z.add_mod_idemp_l, pv_3mod4 by lia. reflexivity. }
  lia.
Qed.

Lemma modulus_odd : pv mod 2 = 1.
Proof.
  pose proof (Z.div_mod pv 4 ltac:(lia)) as D. rewrite pv_3mod4 in D.
  rewrite D. replace (4 * (pv / 4) + 3) with (1 + (2 * (pv / 4) + 1) * 2) by lia.
  rewrite Z.mod_add by lia. reflexivity.
Qed.

(** The candidate squares to the residue whenever the residue is a square. *)
Lemma candidate_squares (yv a : Z) :
  (yv * yv) mod pv = a mod pv ->
  let y0 := (a mod pv) ^ ((pv + 1) / 4) mod pv in
  (y0 * y0) mod pv = (yv * yv) mod pv.
Proof.
  intros Ha y0. subst y0. set (k := (pv + 1) / 4).
  assert (Hk : 0 <= k) by (apply Z.div_pos; lia).
  rewrite <- Z.mul_mod by lia.
  rewrite <- Z.pow_2_r, <- Z.pow_mul_r by lia.
  rewrite <- Ha, Z.mod_pow_l.
  rewrite <- Z.pow_2_r, <- Z.pow_mul_r by lia.
  replace (2 * (k * 2)) with (pv + 1) by (pose proof quarter_exponent; lia).
  rewrite Z.pow_add_r, Z.pow_1_r by lia.
  rewrite <- Z.mul_mod_idemp_l by lia.
  rewrite (Z.fermat pv yv pv_prime).
  rewrite Z.mul_mod_idemp_l by lia.
  rewrite Z.pow_2_r. reflexivity.
Qed.

(** Two residues with the same square are equal or opposite. *)
Lemma same_square (u v : Z) :
  0 <= u < pv -> 0 <= v < pv ->
  (u * u) mod pv = (v * v) mod pv ->
  u = v \/ u + v = pv.
Proof.
  intros Hu Hv H.
  apply Z.cong_iff_0 in H.
  apply Z.mod_divide in H; [|lia].
  replace (u * u - v * v) with ((u - v) * (u + v)) in H by ring.
  apply (Z.divide_prime_mul _ _ _ pv_prime) in H.
  destruct H as [[q Hq] | [q Hq]].
  - left. assert (q = 0) by nia. lia.
  - assert (q = 0 \/ q = 1) as [-> | ->] by nia; [left | right]; lia.
Qed.

(** Decompression recovers the ordinate of a point of the curve from its
    abscissa and the evenness of the ordinate. *)
Lemma recovered_y_correct (xv yv : Z) :
  0 <= yv < pv ->
  (yv * yv) mod pv = (xv ^ 3 + 7) mod pv ->
  recovered_y pv xv (yv mod 2 =? 0) = yv.
Proof.
  intros Hy Hcurve. unfold recovered_y, candidate_root.
  rewrite Z.add_mod_idemp_l by lia.
  set (y0 := ((xv ^ 3 + 7) mod pv) ^ ((pv + 1) / 4) mod pv).
  assert (B0 : 0 <= y0 < pv) by (apply Z.mod_pos_bound; lia).
  pose proof (candidate_squares yv (xv ^ 3 + 7) Hcurve) as Hsq.
  cbv zeta in Hsq. fold y0 in Hsq.
  pose proof modulus_odd as Hodd.
  destruct (same_square y0 yv B0 Hy Hsq) as [E | E].
  - rewrite E, Bool.eqb_reflx. reflexivity.
  - assert (Hpar : y0 mod 2 <> yv mod 2).
    { intros C. apply Z.cong_iff_0 in C.
      replace (y0 - yv) with (pv + (- yv) * 2) in C by lia.
      rewrite Z.mod_add in C by lia. lia. }
    pose proof (Z.mod_pos_bound y0 2 ltac:(lia)).
    pose proof (Z.mod_pos_bound yv 2 ltac:(lia)).
    destruct (Z.eqb_spec (y0 mod 2) 0), (Z.eqb_spec (yv mod 2) 0);
      cbn [Bool.eqb]; lia.
Qed.

End SquareRoot.

(** ** Concrete curves *)

Lemma prime_11 : Z.prime 11.
Proof.
  split; [lia|]. intros n Hn [q Hq].
  assert (0 < q < 11) by nia.
  assert (n = 2 \/ n = 3 \/ n = 4 \/ n = 5 \/ n = 6 \/ n = 7 \/ n = 8 \/
          n = 9 \/ n = 10) as Hc by lia.
  repeat (destruct Hc as [-> | Hc]; [lia|]). lia.
Qed.

(** 7 is not a square modulo 11. *)
Lemma seven_not_square_mod_11 (yv : Z) : (yv * yv) mod 11 <> 7.
Proof.
  rewrite Z.mul_mod by lia.
  pose proof (Z.mod_pos_bound yv 11 ltac:(lia)) as B.
  set (r := yv mod 11) in *.
  assert (r = 0 \/ r = 1 \/ r = 2 \/ r = 3 \/ r = 4 \/ r = 5 \/ r = 6 \/
          r = 7 \/ r = 8 \/ r = 9 \/ r = 10) as Hc by lia.
  repeat (destruct Hc as [-> | Hc]; [discriminate|]). subst r.
  rewrite Hc. discriminate.
Qed.

Lemma recovered_y_fast_eq (pv xv : Z) (is_even : bool) :
  pv <> 0 -> recovered_y pv xv is_even = recovered_y_fast pv xv is_even.
Proof.
  intros Hp. unfold recovered_y, recovered_y_fast, candidate_root.
  rewrite !Zpow_mod_correct by exact Hp. reflexivity.
Qed.

(** The generator survives the compressed round trip, by evaluation. *)
Example generator_roundtrip :
  (b <- encode generator_key true ;; decode secp256k1 PublicKey_cls b)
  = Ok generator_key.
Proof.
  assert (E : exists t, encode generator_key true = Ok (Byte.x02 :: t)
                        /\ Py.from_bytes t = x generator_key).
  { eexists. split; vm_compute; reflexivity. }
  destruct E as [t [E Ht]]. rewrite E. cbn [bind].
  rewrite decode_compressed; [| vm_compute; reflexivity | left; reflexivity].
  rewrite recovered_y_fast_eq by discriminate.
  rewrite Ht. vm_compute. reflexivity.
Qed.

(** An abscissa with no point on secp256k1: the decoded pair does not satisfy
    the curve equation. *)
Example off_curve_decoded :
  exists q,
    decode secp256k1 PublicKey_cls (Byte.x02 :: rev (le_split 32 5)) = Ok q
    /\ x q = 5
    /\ (y q * y q) mod p secp256k1 <> (x q ^ 3 + 7) mod p secp256k1.
Proof.
  eexists. split; [|split].
  - rewrite decode_compressed; [| vm_compute; reflexivity | left; reflexivity].
    rewrite recovered_y_fast_eq by discriminate. reflexivity.
  - vm_compute. reflexivity.
  - vm_compute. discriminate.
Qed.

(** ** The SEC codec *)

(** C3: for a public key with [0 <= x, y < 2^256], the uncompressed encoding
    is exactly 65 bytes, the byte 0x04 followed by [x] and then [y], each as
    32 bytes big-endian; the compressed encoding is exactly 33 bytes, the byte
    0x02 when [y] is even and 0x03 when [y] is odd, followed by [x] as 32
    bytes big-endian. *)
Theorem encode_layout (pk : Point) :
  0 <= x pk < 2 ^ 256 -> 0 <= y pk < 2 ^ 256 ->
  (exists xb yb,
      encode pk false = Ok (Byte.x04 :: xb ++ yb)
      /\ List.length (Byte.x04 :: xb ++ yb) = 65%nat
      /\ List.length xb = 32%nat /\ Py.from_bytes xb = x pk
      /\ List.length yb = 32%nat /\ Py.from_bytes yb = y pk)
  /\
  (exists xb,
      encode pk true = Ok ((if Z.even (y pk) then Byte.x02 else Byte.x03) :: xb)
      /\ List.length ((if Z.even (y pk) then Byte.x02 else Byte.x03) :: xb) = 33%nat
      /\ List.length xb = 32%nat /\ Py.from_bytes xb = x pk).
Proof.
  intros Hx Hy.
  change (2 ^ 256) with (2 ^ (Z.of_nat 32 * 8)) in Hx, Hy.
  split.
  - exists (rev (le_split 32 (x pk))), (rev (le_split 32 (y pk))).
    unfold encode. rewrite !to_bytes_ok by assumption. cbn [bind app].
    rewrite !from_bytes_big_endian by assumption.
    cbn [List.length]. rewrite length_app, !length_big_endian.
    repeat split; reflexivity.
  - exists (rev (le_split 32 (x pk))).
    unfold encode. rewrite to_bytes_ok by assumption. cbn [bind].
    rewrite from_bytes_big_endian by assumption.
    cbn [List.length]. rewrite length_big_endian.
    rewrite even_mod2.
    destruct (y pk mod 2 =? 0); repeat split; reflexivity.
Qed.

Lemma encode_layout_witness :
  (exists xb yb,
      encode generator_key false = Ok (Byte.x04 :: xb ++ yb)
      /\ List.length (Byte.x04 :: xb ++ yb) = 65%nat
      /\ List.length xb = 32%nat /\ Py.from_bytes xb = x generator_key
      /\ List.length yb = 32%nat /\ Py.from_bytes yb = y generator_key)
  /\
  (exists xb,
      encode generator_key true
      = Ok ((if Z.even (y generator_key) then Byte.x02 else Byte.x03) :: xb)
      /\ List.length ((if Z.even (y generator_key) then Byte.x02 else Byte.x03) :: xb)
         = 33%nat
      /\ List.length xb = 32%nat /\ Py.from_bytes xb = x generator_key).
Proof.
  apply (encode_layout generator_key); vm_compute; split; congruence.
Defined.

(** C4, as stated, fails: the 64-byte buffer with leading byte 0x04 is decoded
    without any error, its [y] read from the 31 bytes that are left. *)
Lemma decode_short_uncompressed :
  List.length short_uncompressed = 64%nat
  /\ hd_error short_uncompressed = Some Byte.x04
  /\ decode secp256k1 PublicKey_cls short_uncompressed
     = Ok (mkPoint Point_cls secp256k1
             (Py.from_bytes (repeat Byte.x01 32))
             (Py.from_bytes (repeat Byte.x01 31))).
Proof. repeat split. Qed.

(** C4, amended: [decode] fails with the assertion error of the prefix check
    exactly when the input is not empty and its leading byte is none of 0x02,
    0x03, 0x04; in particular a 33-byte buffer with leading byte 0x05 fails
    that way.  The length is never checked: every buffer with leading byte
    0x04 decodes, whatever its length, and the empty buffer raises
    IndexError. *)
Theorem decode_fails_iff_bad_prefix (G : Curve) (cls : pyclass) (b : list byte) :
  (decode G cls b = Raise AssertionError <->
   exists b0 t, b = b0 :: t /\ b0 <> Byte.x02 /\ b0 <> Byte.x03 /\ b0 <> Byte.x04)
  /\ (forall t, List.length t = 32%nat ->
                decode G cls (Byte.x05 :: t) = Raise AssertionError)
  /\ (forall t, exists q, decode G cls (Byte.x04 :: t) = Ok q)
  /\ decode G cls [] = Raise IndexError.
Proof.
  split; [|split; [|split]].
  - split.
    + destruct b as [|b0 t]; [discriminate|]. intros H. exists b0, t.
      split; [reflexivity|].
      repeat split; intros ->;
        try (apply decode_compressed_raises in H; auto); discriminate.
    + intros (b0 & t & -> & H2 & H3 & H4). unfold decode.
      destruct (byte_is b0 4) eqn:E4;
        [apply byte_is_true in E4; contradiction|].
      destruct (byte_is b0 2) eqn:E2;
        [apply byte_is_true in E2; contradiction|].
      destruct (byte_is b0 3) eqn:E3;
        [apply byte_is_true in E3; contradiction|].
      reflexivity.
  - intros t _. reflexivity.
  - intros t. eexists. apply decode_uncompressed.
  - reflexivity.
Qed.

(** C2: on a prefix 0x02 or 0x03 followed by a 32-byte big-endian [x],
    [decode] computes [y2 = (x^3 + 7) mod p] and the candidate root
    [y0 = y2^((p+1)/4) mod p], and returns the point [(x, y)] with [y = y0]
    when the parity of [y0] matches the prefix (even for 0x02, odd for 0x03)
    and [y = p - y0] otherwise; the returned [y] always has the parity the
    prefix indicates. *)
Theorem decode_compressed_spec
        (G : Curve) (cls : pyclass) (b0 : byte) (xs : list byte) :
  0 < p G -> p G mod 4 = 3 ->
  b0 = Byte.x02 \/ b0 = Byte.x03 ->
  List.length xs = 32%nat ->
  let xv := Py.from_bytes xs in
  let y2 := (xv ^ 3 + 7) mod p G in
  let y0 := y2 ^ ((p G + 1) / 4) mod p G in
  let parity_matches :=
    if byte_is b0 2 then Z.even y0 else Z.odd y0 in
  let yv := if parity_matches then y0 else p G - y0 in
  decode G cls (b0 :: xs) = Ok (mkPoint cls G xv yv)
  /\ (b0 = Byte.x02 -> Z.even yv = true)
  /\ (b0 = Byte.x03 -> Z.odd yv = true).
Proof.
  intros Hp H4 Hb _ xv y2 y0 parity_matches yv.
  assert (Hodd : p G mod 2 = 1).
  { pose proof (Z.div_mod (p G) 4 ltac:(lia)) as D. rewrite H4 in D.
    rewrite D.
    replace (4 * (p G / 4) + 3) with (1 + (2 * (p G / 4) + 1) * 2) by lia.
    rewrite Z.mod_add by lia. reflexivity. }
  assert (Hy : recovered_y (p G) xv (byte_is b0 2) = yv).
  { unfold recovered_y, candidate_root.
    rewrite Z.add_mod_idemp_l by lia. fold y2. fold y0.
    subst yv parity_matches. rewrite <- Z.negb_even, even_mod2.
    destruct (byte_is b0 2), (y0 mod 2 =? 0); reflexivity. }
  pose proof (recovered_parity (p G) xv (byte_is b0 2) Hp Hodd) as Hpar.
  rewrite Hy in Hpar.
  split; [|split].
  - rewrite decode_compressed by assumption. fold xv. rewrite Hy. reflexivity.
  - intros ->. rewrite even_mod2, Hpar. reflexivity.
  - intros ->. rewrite <- Z.negb_even, even_mod2, Hpar. reflexivity.
Qed.

Lemma decode_compressed_spec_witness :
  decode curve11 PublicKey_cls (Byte.x02 :: rev (le_split 32 2))
  = Ok (mkPoint PublicKey_cls curve11 2 2)
  /\ Z.even 2 = true.
Proof.
  destruct (decode_compressed_spec curve11 PublicKey_cls Byte.x02
              (rev (le_split 32 2)))
    as [Hdec [Heven _]].
  - reflexivity.
  - reflexivity.
  - left. reflexivity.
  - reflexivity.
  - split; [exact Hdec | exact (Heven eq_refl)].
Defined.

(** C6: on a 33-byte input with prefix 0x02 or 0x03 whose [x] makes
    [x^3 + 7] a quadratic non-residue modulo [p] (no point of the curve has
    that abscissa), [decode] does not fail: it returns a point, and that point
    does not satisfy [y^2 = x^3 + 7 (mod p)]. *)
Theorem decode_off_curve
        (G : Curve) (cls : pyclass) (b0 : byte) (xs : list byte) :
  0 < p G ->
  b0 = Byte.x02 \/ b0 = Byte.x03 ->
  List.length xs = 32%nat ->
  (forall yv, (yv * yv) mod p G <> (Py.from_bytes xs ^ 3 + 7) mod p G) ->
  exists q,
    decode G cls (b0 :: xs) = Ok q
    /\ x q = Py.from_bytes xs
    /\ ~ satisfies_equation G (x q) (y q).
Proof.
  intros Hp Hb _ Hnr. eexists. split; [|split].
  - apply decode_compressed; assumption.
  - reflexivity.
  - cbn [x y]. unfold satisfies_equation. apply Hnr.
Qed.

Lemma decode_off_curve_witness :
  exists q,
    decode curve11 PublicKey_cls (Byte.x03 :: repeat Byte.x00 32) = Ok q
    /\ x q = Py.from_bytes (repeat Byte.x00 32)
    /\ ~ satisfies_equation curve11 (x q) (y q).
Proof.
  apply (decode_off_curve curve11 PublicKey_cls Byte.x03 (repeat Byte.x00 32)).
  - reflexivity.
  - right. reflexivity.
  - reflexivity.
  - intros yv. apply seven_not_square_mod_11.
Defined.

(** C9: the two branches of [decode] build values of different classes: on a
    leading byte 0x04, [PublicKey.decode] returns a plain [Point], on a
    leading byte 0x02 or 0x03 it returns a [PublicKey]; so decoding the
    uncompressed encoding of a key does not give back a [PublicKey]. *)
Theorem decode_classes (G : Curve) :
  0 < p G ->
  (forall t, exists q,
        decode G PublicKey_cls (Byte.x04 :: t) = Ok q
        /\ class_of q = Point_cls)
  /\ (forall b0 t, b0 = Byte.x02 \/ b0 = Byte.x03 ->
        exists q,
          decode G PublicKey_cls (b0 :: t) = Ok q
          /\ class_of q = PublicKey_cls)
  /\ (forall pk b, encode pk false = Ok b ->
        exists q,
          decode G PublicKey_cls b = Ok q /\ class_of q <> PublicKey_cls).
Proof.
  intros Hp. split; [|split].
  - intros t. eexists. split; [apply decode_uncompressed | reflexivity].
  - intros b0 t Hb. eexists.
    split; [apply decode_compressed; assumption | reflexivity].
  - intros pk b E. unfold encode, bind in E.
    destruct (Py.to_bytes (x pk) 32); [|discriminate].
    destruct (Py.to_bytes (y pk) 32); [|discriminate].
    injection E as <-. cbn [app]. eexists.
    split; [apply decode_uncompressed | discriminate].
Qed.

Lemma decode_classes_witness :
  (exists q,
      decode secp256k1 PublicKey_cls (Byte.x04 :: repeat Byte.x01 64) = Ok q
      /\ class_of q = Point_cls)
  /\ (exists q,
      decode secp256k1 PublicKey_cls (Byte.x02 :: repeat Byte.x01 32) = Ok q
      /\ class_of q = PublicKey_cls).
Proof.
  assert (Hp : 0 < p secp256k1) by reflexivity.
  destruct (decode_classes secp256k1 Hp) as [H4 [H23 _]].
  split; [apply H4 | apply H23; left; reflexivity].
Defined.

(** The compressed round trip gives back the very same instance. *)
Lemma decode_encode_compressed (G : Curve) (pk : Point) :
  Z.prime (p G) -> p G mod 4 = 3 -> p G <= 2 ^ 256 ->
  class_of pk = PublicKey_cls -> on_curve G pk ->
  0 <= x pk < p G -> 0 <= y pk < p G ->
  (b <- encode pk true ;; decode G PublicKey_cls b) = Ok pk.
Proof.
  intros Hprime H4 Hsize Hcls [Hcurve Heq] Hx Hy.
  pose proof (Z.prime_ge_2 _ Hprime) as Hp2.
  destruct pk as [c k xv yv]. cbn [class_of curve x y] in *. subst c k.
  unfold encode. cbn [x y].
  rewrite to_bytes_ok by (change (Z.of_nat 32 * 8) with 256; lia).
  cbn [bind].
  assert (Hd : forall b0, b0 = Byte.x02 \/ b0 = Byte.x03 ->
                 byte_is b0 2 = (yv mod 2 =? 0) ->
                 decode G PublicKey_cls ([b0] ++ rev (le_split 32 xv))
                 = Ok (mkPoint PublicKey_cls G xv yv)).
  { intros b0 Hb Hflag. cbn [app].
    rewrite decode_compressed by (assumption || lia).
    rewrite from_bytes_big_endian by (change (Z.of_nat 32 * 8) with 256; lia).
    rewrite Hflag, recovered_y_correct by assumption. reflexivity. }
  destruct (yv mod 2 =? 0) eqn:E; apply Hd; auto.
Qed.

(** The uncompressed round trip gives back the same curve and coordinates,
    in an instance of the base class. *)
Lemma decode_encode_uncompressed (G : Curve) (pk : Point) :
  curve pk = G -> 0 <= x pk < 2 ^ 256 -> 0 <= y pk < 2 ^ 256 ->
  (b <- encode pk false ;; decode G PublicKey_cls b)
  = Ok (mkPoint Point_cls G (x pk) (y pk)).
Proof.
  intros Hcurve Hx Hy.
  change (2 ^ 256) with (2 ^ (Z.of_nat 32 * 8)) in Hx, Hy.
  unfold encode. rewrite !to_bytes_ok by assumption. cbn [bind app].
  rewrite decode_uncompressed.
  rewrite slice_x, slice_y by apply length_big_endian.
  rewrite !from_bytes_big_endian by assumption. reflexivity.
Qed.

(** The round trip up to the class of the result: for every public key whose
    coordinates are in [0, p) and which lies on the curve
    [y^2 = x^3 + 7 (mod p)], [p] a prime congruent to 3 modulo 4, decoding the
    encoding returns the curve and coordinates of the key in both forms, and
    the key itself in the compressed form. *)
Theorem decode_encode_roundtrip (G : Curve) (pk : Point) (compressed : bool) :
  Z.prime (p G) -> p G mod 4 = 3 -> p G <= 2 ^ 256 ->
  class_of pk = PublicKey_cls -> on_curve G pk ->
  0 <= x pk < p G -> 0 <= y pk < p G ->
  exists q,
    (b <- encode pk compressed ;; decode G PublicKey_cls b) = Ok q
    /\ same_point q pk
    /\ (compressed = true -> q = pk).
Proof.
  intros Hprime H4 Hsize Hcls Hon Hx Hy. destruct compressed.
  - exists pk. split; [|repeat split].
    apply decode_encode_compressed; assumption.
  - exists (mkPoint Point_cls G (x pk) (y pk)). destruct Hon as [Hcurve _].
    split; [|repeat split; cbn; congruence].
    apply decode_encode_uncompressed; [assumption | lia | lia].
Qed.

Lemma decode_encode_roundtrip_witness :
  (exists q,
      (b <- encode key11 true ;; decode curve11 PublicKey_cls b) = Ok q
      /\ same_point q key11
      /\ (true = true -> q = key11))
  /\
  (exists q,
      (b <- encode key11 false ;; decode curve11 PublicKey_cls b) = Ok q
      /\ same_point q key11
      /\ (false = true -> q = key11)).
Proof.
  split.
  - apply (decode_encode_roundtrip curve11 key11 true).
    + exact prime_11.
    + reflexivity.
    + vm_compute. congruence.
    + reflexivity.
    + split; reflexivity.
    + cbn. lia.
    + cbn. lia.
  - apply (decode_encode_roundtrip curve11 key11 false).
    + exact prime_11.
    + reflexivity.
    + vm_compute. congruence.
    + reflexivity.
    + split; reflexivity.
    + cbn. lia.
    + cbn. lia.
Defined.

Lemma to_bytes_inv (n : Z) (len : nat) (bs : list byte) :
  Py.to_bytes n len = Ok bs ->
  0 <= n < 2 ^ (Z.of_nat len * 8)
  /\ List.length bs = len /\ Py.from_bytes bs = n.
Proof.
  unfold Py.to_bytes.
  destruct (Z.ltb_spec n 0); [discriminate|].
  destruct (Z.leb_spec (2 ^ (Z.of_nat len * 8)) n); [discriminate|].
  intros H'. injection H' as <-.
  split; [lia|]. split; [apply length_big_endian|].
  apply from_bytes_big_endian. lia.
Qed.

(** Decoding an uncompressed encoding always builds a base [Point]. *)
Lemma encode_uncompressed_inv (G : Curve) (pk : Point) (b : list byte) :
  encode pk false = Ok b ->
  decode G PublicKey_cls b = Ok (mkPoint Point_cls G (x pk) (y pk)).
Proof.
  unfold encode.
  destruct (Py.to_bytes (x pk) 32) as [xb|] eqn:Ex; [|discriminate].
  destruct (Py.to_bytes (y pk) 32) as [yb|] eqn:Ey; [|discriminate].
  apply to_bytes_inv in Ex, Ey.
  destruct Ex as (_ & Lx & Hx). destruct Ey as (_ & Ly & Hy).
  cbn [bind app]. intros H'. injection H' as <-.
  rewrite decode_uncompressed, slice_x, slice_y, Hx, Hy by assumption.
  reflexivity.
Qed.

(** In the uncompressed form the round trip never gives the key back: the
    branch for the prefix 0x04 builds a [Point] where the other branch builds
    an instance of [cls]. *)
Lemma decode_encode_uncompressed_not_key (G : Curve) (pk q : Point) (b : list byte) :
  class_of pk = PublicKey_cls ->
  encode pk false = Ok b ->
  decode G PublicKey_cls b = Ok q ->
  q <> pk.
Proof.
  intros Hcls E D. rewrite (encode_uncompressed_inv G pk b E) in D.
  injection D as <-. intros Heq.
  apply (f_equal class_of) in Heq. cbn [class_of] in Heq. congruence.
Qed.

(** C1: the claim fails on the code.  For the generator of secp256k1, a
    public key on the curve with coordinates below [p], decoding the
    compressed encoding returns the key, but decoding the uncompressed
    encoding returns a base [Point] with the coordinates of the key, which is
    not the key. *)
Theorem uncompressed_roundtrip_loses_class :
  class_of generator_key = PublicKey_cls
  /\ on_curve secp256k1 generator_key
  /\ (b <- encode generator_key true ;; decode secp256k1 PublicKey_cls b)
     = Ok generator_key
  /\ (b <- encode generator_key false ;; decode secp256k1 PublicKey_cls b)
     = Ok (mkPoint Point_cls secp256k1 (x generator_key) (y generator_key))
  /\ (b <- encode generator_key false ;; decode secp256k1 PublicKey_cls b)
     <> Ok generator_key.
Proof.
  assert (Hunc : (b <- encode generator_key false ;;
                  decode secp256k1 PublicKey_cls b)
                 = Ok (mkPoint Point_cls secp256k1 (x generator_key)
                         (y generator_key))).
  { apply decode_encode_uncompressed;
      [reflexivity | vm_compute; split; congruence
       | vm_compute; split; congruence]. }
  split; [reflexivity|].
  split; [split; [reflexivity | vm_compute; reflexivity]|].
  split; [exact generator_roundtrip|].
  split; [exact Hunc|].
  rewrite Hunc. discriminate.
Qed.

(** ** Secret keys *)

Section SecretKeyProperties.

Variable sha256 : list byte -> list byte.
Variable w : World.

(** What the loop returns was drawn by the last call of the source and lies
    in the range. *)
Lemma sample_accepts (fuel : nat) (f : M (list byte)) (n : Z) :
  forall c k c',
    sample fuel f n c = Some (Ok (k, c')) ->
    1 <= k < n /\ exists c0 bs, f c0 = Ok (bs, c') /\ k = Py.from_bytes bs.
Proof.
  induction fuel as [|fuel IH]; intros c k c' H; [discriminate|].
  cbn [sample] in H. destruct (f c) as [[bs c1]|e] eqn:Ef; [|discriminate].
  destruct (1 <=? Py.from_bytes bs) eqn:E1;
    destruct (Py.from_bytes bs <? n) eqn:E2; cbn [andb] in H;
    try (apply IH in H; exact H).
  injection H as <- <-.
  apply Z.leb_le in E1. apply Z.ltb_lt in E2.
  split; [lia|]. exists c, bs. split; [exact Ef | reflexivity].
Qed.

(** An error of the loop is an error of the source. *)
Lemma sample_raises (fuel : nat) (f : M (list byte)) (n : Z) :
  forall c e, sample fuel f n c = Some (Raise e) -> exists c0, f c0 = Raise e.
Proof.
  induction fuel as [|fuel IH]; intros c e H; [discriminate|].
  cbn [sample] in H. destruct (f c) as [[bs c1]|e'] eqn:Ef.
  - destruct ((1 <=? Py.from_bytes bs) && (Py.from_bytes bs <? n));
      [discriminate | eapply IH; eassumption].
  - injection H as <-. exists c. exact Ef.
Qed.

(** A source that keeps drawing the same rejected value never lets the loop
    end. *)
Lemma sample_constant_rejected (f : M (list byte)) (bs : list byte) (n : Z) :
  (forall c, f c = Ok (bs, c)) ->
  ~ (1 <= Py.from_bytes bs < n) ->
  forall fuel c, sample fuel f n c = None.
Proof.
  intros Hf Hout. induction fuel as [|fuel IH]; intros c; [reflexivity|].
  cbn [sample]. rewrite Hf.
  destruct (Z.leb_spec 1 (Py.from_bytes bs));
    destruct (Z.ltb_spec (Py.from_bytes bs) n); cbn [andb];
    try apply IH. lia.
Qed.

Lemma sample_constant_accepted (f : M (list byte)) (bs : list byte) (n : Z) :
  (forall c, f c = Ok (bs, c)) ->
  1 <= Py.from_bytes bs < n ->
  forall fuel c, sample (S fuel) f n c = Some (Ok (Py.from_bytes bs, c)).
Proof.
  intros Hf Hin fuel c. cbn [sample]. rewrite Hf.
  destruct (Z.leb_spec 1 (Py.from_bytes bs)); [|lia].
  destruct (Z.ltb_spec (Py.from_bytes bs) n); [|lia]. reflexivity.
Qed.

(** More iterations never change a result already reached. *)
Lemma sample_more_fuel (f : M (list byte)) (n : Z) :
  forall fuel extra c r,
    sample fuel f n c = Some r -> sample (fuel + extra) f n c = Some r.
Proof.
  induction fuel as [|fuel IH]; intros extra c r H; [discriminate|].
  cbn [sample Nat.add] in *. destruct (f c) as [[bs c1]|e]; [|exact H].
  destruct ((1 <=? Py.from_bytes bs) && (Py.from_bytes bs <? n));
    [exact H | apply IH; exact H].
Qed.

(** The loop has at most one result. *)
Lemma sample_deterministic (f : M (list byte)) (n : Z) (c : Cursor) :
  forall fuel1 fuel2 r1 r2,
    sample fuel1 f n c = Some r1 -> sample fuel2 f n c = Some r2 -> r1 = r2.
Proof.
  intros fuel1 fuel2 r1 r2 H1 H2.
  apply (sample_more_fuel f n fuel1 fuel2) in H1.
  apply (sample_more_fuel f n fuel2 fuel1) in H2.
  rewrite Nat.add_comm in H2. congruence.
Qed.

Lemma recognized_cases (source : string) :
  recognized source = true ->
  source = "os"%string \/ source = "user"%string \/ source = "mastering"%string.
Proof.
  unfold recognized. cbn [existsb]. intros H.
  repeat (apply Bool.orb_true_iff in H; destruct H as [H | H]);
    try (apply String.eqb_eq in H; auto); discriminate.
Qed.

(** The fixed test vector: always the same 32 bytes, the world untouched. *)
Lemma mastering_bytes_constant :
  exists bs, Py.from_bytes bs = mastering_sk
             /\ forall c, mastering_bitcoin_bytes c = Ok (bs, c).
Proof.
  eexists. split; [|intros c; unfold mastering_bitcoin_bytes, lift].
  2: { vm_compute Py.fromhex. reflexivity. }
  vm_compute. reflexivity.
Qed.

Lemma os_never_raises (c : Cursor) (e : exn) : random_bytes_os w c <> Raise e.
Proof. discriminate. Qed.

Lemma mastering_never_raises (c : Cursor) (e : exn) :
  mastering_bitcoin_bytes c <> Raise e.
Proof.
  destruct mastering_bytes_constant as [bs [_ H]]. rewrite H. discriminate.
Qed.

(** The interactive source only fails on an exhausted input or on a word
    that is not ASCII. *)
Lemma collect_words_raises (todo : nat) :
  forall i entropy c e,
    collect_words w i todo entropy c = Raise e -> e = EOFError.
Proof.
  induction todo as [|todo IH]; intros i entropy c e H; [discriminate|].
  cbn [collect_words] in H. unfold mbind, input, time_micros in H.
  destruct (stdin w (n_stdin c)); [|congruence].
  eapply IH. exact H.
Qed.

Lemma encode_ascii_raises (s : string) (e : exn) :
  Py.encode_ascii s = Raise e -> e = UnicodeEncodeError.
Proof.
  induction s as [|ch s IH]; [discriminate|]. cbn [Py.encode_ascii].
  destruct (N_of_ascii ch <? 128)%N; [|congruence].
  destruct (Py.encode_ascii s); [discriminate|].
  cbn [bind]. intros H. apply IH. exact H.
Qed.

Lemma user_raises (c : Cursor) (e : exn) :
  random_bytes_user sha256 w c = Raise e ->
  e = EOFError \/ e = UnicodeEncodeError.
Proof.
  unfold random_bytes_user, mbind, lift, ret.
  destruct (collect_words w 0 5 "" c) as [[entropy c1]|e1] eqn:E.
  - destruct (Py.encode_ascii entropy) eqn:E2; [discriminate|].
    intros H. injection H as <-. right.
    eapply encode_ascii_raises. exact E2.
  - intros H. injection H as <-. left.
    eapply collect_words_raises. exact E.
Qed.

End SecretKeyProperties.

(** With the operating system source, the loop stops at the first draw that
    lies in the range, however many were rejected before. *)
Lemma sample_os_first_hit (w : World) (n : Z) :
  forall i c,
    (forall j, (j < i)%nat ->
               ~ (1 <= Py.from_bytes (urandom w (n_urandom c + j)) < n)) ->
    1 <= Py.from_bytes (urandom w (n_urandom c + i)) < n ->
    sample (S i) (random_bytes_os w) n c
    = Some (Ok (Py.from_bytes (urandom w (n_urandom c + i)),
                mkCursor (S (n_urandom c + i)) (n_stdin c) (n_clock c))).
Proof.
  induction i as [|i IH]; intros c Hrej Hacc.
  - rewrite Nat.add_0_r in *. cbn [sample random_bytes_os os_urandom].
    destruct (Z.leb_spec 1 (Py.from_bytes (urandom w (n_urandom c)))); [|lia].
    destruct (Z.ltb_spec (Py.from_bytes (urandom w (n_urandom c))) n); [|lia].
    reflexivity.
  - change (sample (S (S i)) (random_bytes_os w) n c)
      with (let key := Py.from_bytes (urandom w (n_urandom c)) in
            if (1 <=? key) && (key <? n)
            then Some (Ok (key, mkCursor (S (n_urandom c)) (n_stdin c) (n_clock c)))
            else sample (S i) (random_bytes_os w) n
                        (mkCursor (S (n_urandom c)) (n_stdin c) (n_clock c))).
    cbv zeta. pose proof (Hrej 0%nat ltac:(lia)) as H0.
    rewrite Nat.add_0_r in H0.
    destruct (Z.leb_spec 1 (Py.from_bytes (urandom w (n_urandom c))));
      destruct (Z.ltb_spec (Py.from_bytes (urandom w (n_urandom c))) n);
      cbn [andb]; try lia;
      (rewrite IH; cbn [n_urandom n_stdin n_clock];
       [ rewrite <- Nat.add_succ_comm; reflexivity
       | intros j Hj; rewrite Nat.add_succ_comm; apply Hrej; lia
       | rewrite Nat.add_succ_comm; exact Hacc ]).
Qed.

(** X12: with the operating system source, [gen_secret_key] returns the
    first draw that lies in [1, n), unchanged, after consuming that draw and
    all the rejected ones before it and nothing else of the world. *)
Theorem gen_secret_key_os_returns
      (sha256 : list byte -> list byte) (w : World) (n : Z) (c : Cursor) (i : nat) :
  (forall j, (j < i)%nat ->
             ~ (1 <= Py.from_bytes (urandom w (n_urandom c + j)) < n)) ->
  1 <= Py.from_bytes (urandom w (n_urandom c + i)) < n ->
  returns sha256 w n "os"%string c
          (Ok (Py.from_bytes (urandom w (n_urandom c + i)),
               mkCursor (S (n_urandom c + i)) (n_stdin c) (n_clock c))).
Proof.
  intros Hrej Hacc. exists (S i).
  change (gen_secret_key sha256 w (S i) n "os"%string c)
    with (sample (S i) (random_bytes_os w) n c).
  apply sample_os_first_hit; assumption.
Qed.

(** With the fixed test vector, the first iteration already decides. *)
Lemma gen_secret_key_mastering_unfold
      (sha256 : list byte -> list byte) (w : World)
      (fuel : nat) (n : Z) (c : Cursor) :
  gen_secret_key sha256 w fuel n "mastering"%string c
  = sample fuel mastering_bitcoin_bytes n c.
Proof. reflexivity. Qed.

Lemma gen_secret_key_mastering_value
      (sha256 : list byte -> list byte) (w : World)
      (fuel : nat) (n : Z) (c : Cursor) :
  mastering_sk < n ->
  gen_secret_key sha256 w (S fuel) n "mastering"%string c
  = Some (Ok (mastering_sk, c)).
Proof.
  intros Hn. destruct mastering_bytes_constant as [bs [Hbs Hf]].
  assert (Hin : 1 <= Py.from_bytes bs < n)
    by (rewrite Hbs; split; [vm_compute; congruence | exact Hn]).
  rewrite gen_secret_key_mastering_unfold.
  rewrite (sample_constant_accepted _ bs n Hf Hin), Hbs. reflexivity.
Qed.

(** A call of [gen_secret_key] has at most one result. *)
Lemma returns_deterministic
      (sha256 : list byte -> list byte) (w : World)
      (n : Z) (source : string) (c : Cursor) (r1 r2 : result (Z * Cursor)) :
  returns sha256 w n source c r1 -> returns sha256 w n source c r2 -> r1 = r2.
Proof.
  intros [fuel1 H1] [fuel2 H2]. unfold gen_secret_key in *.
  destruct (negb (recognized source)); [congruence|].
  destruct (lookup source (bytes_fns sha256 w)) as [f|]; [|congruence].
  eapply sample_deterministic; eassumption.
Qed.

(** C5: for every recognized source and every upper bound [n], whenever
    [gen_secret_key(n, source)] returns, the value [k] it returns satisfies
    [1 <= k < n]; it is the integer of the bytes the source drew last, neither
    reduced nor truncated. *)
Theorem gen_secret_key_in_range
        (sha256 : list byte -> list byte) (w : World)
        (n : Z) (source : string) (c c' : Cursor) (k : Z) :
  recognized source = true ->
  returns sha256 w n source c (Ok (k, c')) ->
  1 <= k < n
  /\ exists bytes_fn c0 bs,
      lookup source (bytes_fns sha256 w) = Some bytes_fn
      /\ bytes_fn c0 = Ok (bs, c')
      /\ k = Py.from_bytes bs.
Proof.
  intros Hrec [fuel H]. unfold gen_secret_key in H. rewrite Hrec in H.
  cbn [negb] in H.
  destruct (lookup source (bytes_fns sha256 w)) as [f|]; [|discriminate].
  apply sample_accepts in H. destruct H as [Hk (c0 & bs & Hf & ->)].
  split; [exact Hk|]. exists f, c0, bs. repeat split. exact Hf.
Qed.

Lemma gen_secret_key_in_range_witness :
  1 <= 1 < 10
  /\ exists bytes_fn c0 bs,
      lookup "os"%string (bytes_fns (fun b => b) counting_world) = Some bytes_fn
      /\ bytes_fn c0 = Ok (bs, mkCursor 2 0 0)
      /\ 1 = Py.from_bytes bs.
Proof.
  apply (gen_secret_key_in_range (fun b => b) counting_world 10 "os"%string
           start (mkCursor 2 0 0) 1).
  - reflexivity.
  - exists 2%nat. reflexivity.
Defined.

(** C7: for every upper bound [n] above the published secret key, the fixed
    test vector source makes [gen_secret_key] return exactly that key, and
    the key lies in [1, n). *)
Theorem gen_secret_key_mastering
        (sha256 : list byte -> list byte) (w : World)
        (fuel : nat) (n : Z) (c : Cursor) :
  mastering_sk < n ->
  gen_secret_key sha256 w (S fuel) n "mastering"%string c
  = Some (Ok (mastering_sk, c))
  /\ (forall r, returns sha256 w n "mastering"%string c r ->
                r = Ok (mastering_sk, c))
  /\ 1 <= mastering_sk < n.
Proof.
  intros Hn. split; [|split].
  - apply gen_secret_key_mastering_value. exact Hn.
  - intros r Hr. apply (returns_deterministic sha256 w n _ c _ _ Hr).
    exists 1%nat. apply gen_secret_key_mastering_value. exact Hn.
  - split; [vm_compute; congruence | exact Hn].
Qed.

Lemma gen_secret_key_mastering_witness :
  gen_secret_key (fun b => b) counting_world 1 secp256k1_order
                 "mastering"%string start
  = Some (Ok (mastering_sk, start))
  /\ 1 <= mastering_sk < secp256k1_order.
Proof.
  destruct (gen_secret_key_mastering (fun b => b) counting_world 0
              secp256k1_order start) as [Hret [_ Hrange]].
  - reflexivity.
  - split; [exact Hret | exact Hrange].
Defined.

(** C8: [gen_secret_key] fails with the assertion error of its first line
    when the source name is outside the recognized set, and that is its only
    error of its own: with a recognized source, it raises nothing but what the
    interactive source itself raises while reading the console, and nothing
    at all with the operating system source or the fixed test vector. *)
Theorem gen_secret_key_errors
        (sha256 : list byte -> list byte) (w : World)
        (fuel : nat) (n : Z) (source : string) (c : Cursor) :
  (gen_secret_key sha256 w fuel n source c = Some (Raise AssertionError)
   <-> recognized source = false)
  /\ (forall e,
        recognized source = true ->
        gen_secret_key sha256 w fuel n source c = Some (Raise e) ->
        source = "user"%string
        /\ (e = EOFError \/ e = UnicodeEncodeError)
        /\ exists c0, random_bytes_user sha256 w c0 = Raise e).
Proof.
  assert (Hrecognized :
            forall e, recognized source = true ->
                      gen_secret_key sha256 w fuel n source c = Some (Raise e) ->
                      source = "user"%string
                      /\ (e = EOFError \/ e = UnicodeEncodeError)
                      /\ exists c0, random_bytes_user sha256 w c0 = Raise e).
  { intros e Hrec H. unfold gen_secret_key in H. rewrite Hrec in H.
    cbn [negb] in H.
    destruct (recognized_cases source Hrec) as [-> | [-> | ->]];
      cbn [lookup bytes_fns String.eqb Ascii.eqb Bool.eqb] in H;
      apply sample_raises in H; destruct H as [c0 H].
    - exfalso. exact (os_never_raises w c0 e H).
    - split; [reflexivity|]. split; [|exists c0; exact H].
      eapply user_raises. exact H.
    - exfalso. exact (mastering_never_raises c0 e H). }
  split; [|exact Hrecognized]. split.
  - intros H. destruct (recognized source) eqn:Hrec; [|reflexivity].
    destruct (Hrecognized AssertionError eq_refl H) as [_ [[E | E] _]];
      discriminate.
  - intros Hrec. unfold gen_secret_key. rewrite Hrec. reflexivity.
Qed.

(** C10: with the fixed test vector source, [gen_secret_key] returns if and
    only if the hardcoded value is below the upper bound [n]; for any [n] at
    most that value the loop rejects the same sample at every iteration and
    the call never returns. *)
Theorem gen_secret_key_mastering_terminates
        (sha256 : list byte -> list byte) (w : World) (n : Z) (c : Cursor) :
  ((exists r, returns sha256 w n "mastering"%string c r) <-> mastering_sk < n)
  /\ (n <= mastering_sk -> loops_forever sha256 w n "mastering"%string c).
Proof.
  assert (Hloop : n <= mastering_sk ->
                  loops_forever sha256 w n "mastering"%string c).
  { intros Hn fuel. destruct mastering_bytes_constant as [bs [Hbs Hf]].
    rewrite gen_secret_key_mastering_unfold.
    apply (sample_constant_rejected _ bs n Hf). rewrite Hbs. lia. }
  split; [|exact Hloop]. split.
  - intros [r [fuel H]]. destruct (Z.lt_ge_cases mastering_sk n) as [|Hge];
      [assumption|].
    rewrite (Hloop Hge fuel) in H. discriminate.
  - intros Hn. exists (Ok (mastering_sk, c)), 1%nat.
    apply gen_secret_key_mastering_value. exact Hn.
Qed.

(** * Further properties of the codec *)

Lemma from_bytes_range (bs : list byte) :
  0 <= Py.from_bytes bs < 2 ^ (Z.of_nat (List.length bs) * 8).
Proof.
  unfold Py.from_bytes. pose proof (le_combine_bound (rev bs)) as B.
  rewrite length_rev in B.
  replace (Z.of_nat (List.length bs) * 8) with (8 * Z.of_nat (List.length bs))
    by lia.
  exact B.
Qed.

(** Writing back the integer read from [len] bytes gives the same bytes. *)
Lemma to_bytes_from_bytes (bs : list byte) :
  Py.to_bytes (Py.from_bytes bs) (List.length bs) = Ok bs.
Proof.
  rewrite to_bytes_ok by apply from_bytes_range.
  unfold Py.from_bytes. rewrite <- (length_rev bs), split_le_combine.
  rewrite rev_involutive. reflexivity.
Qed.

Lemma prefix_of_flag (b0 : byte) :
  b0 = Byte.x02 \/ b0 = Byte.x03 ->
  (if byte_is b0 2 then [Byte.x02] else [Byte.x03]) = [b0].
Proof. intros [-> | ->]; reflexivity. Qed.

(** X1: every 33-byte buffer with prefix 0x02 or 0x03 is a fixed point of
    decoding then encoding in compressed form, whether or not its abscissa
    has a point on the curve, as soon as the modulus is positive and odd. *)
Theorem encode_decode_compressed (G : Curve) (b0 : byte) (xs : list byte) :
  0 < p G -> p G mod 2 = 1 ->
  b0 = Byte.x02 \/ b0 = Byte.x03 ->
  List.length xs = 32%nat ->
  (q <- decode G PublicKey_cls (b0 :: xs) ;; encode q true) = Ok (b0 :: xs).
Proof.
  intros Hp Hodd Hb Hlen.
  rewrite decode_compressed by assumption. cbn [bind].
  unfold encode. cbn [x y].
  rewrite recovered_parity by assumption.
  rewrite <- Hlen, to_bytes_from_bytes. cbn [bind].
  rewrite prefix_of_flag by assumption. reflexivity.
Qed.

Lemma encode_decode_compressed_witness :
  (q <- decode secp256k1 PublicKey_cls (Byte.x03 :: rev (le_split 32 5)) ;;
   encode q true)
  = Ok (Byte.x03 :: rev (le_split 32 5)).
Proof.
  apply (encode_decode_compressed secp256k1 Byte.x03 (rev (le_split 32 5))).
  - reflexivity.
  - reflexivity.
  - right. reflexivity.
  - reflexivity.
Defined.

Lemma split_64 (t : list byte) :
  List.length t = 64%nat ->
  List.length (firstn 32 t) = 32%nat
  /\ List.length (skipn 32 t) = 32%nat
  /\ t = firstn 32 t ++ skipn 32 t.
Proof.
  intros L. rewrite length_firstn, length_skipn, L, firstn_skipn.
  repeat split.
Qed.

(** X2: every 65-byte buffer with prefix 0x04 is a fixed point of decoding,
    promoting the decoded point to a public key, and encoding it in
    uncompressed form; nothing about the curve is needed. *)
Theorem encode_decode_uncompressed (G : Curve) (cls : pyclass) (t : list byte) :
  List.length t = 64%nat ->
  (q <- decode G cls (Byte.x04 :: t) ;;
   encode (from_point PublicKey_cls q) false)
  = Ok (Byte.x04 :: t).
Proof.
  intros L. destruct (split_64 t L) as (Lx & Ly & E).
  set (xb := firstn 32 t) in *. set (yb := skipn 32 t) in *.
  rewrite E, decode_uncompressed. cbn [bind].
  rewrite slice_x, slice_y by assumption.
  unfold encode, from_point. cbn [x y].
  rewrite <- Lx at 1. rewrite to_bytes_from_bytes. cbn [bind].
  rewrite <- Ly at 1. rewrite to_bytes_from_bytes. reflexivity.
Qed.

Lemma encode_decode_uncompressed_witness :
  (q <- decode secp256k1 PublicKey_cls (Byte.x04 :: repeat Byte.xff 64) ;;
   encode (from_point PublicKey_cls q) false)
  = Ok (Byte.x04 :: repeat Byte.xff 64).
Proof.
  apply (encode_decode_uncompressed secp256k1 PublicKey_cls (repeat Byte.xff 64)).
  reflexivity.
Defined.

(** The flip of the candidate root has the same square. *)
Lemma recovered_square (pv xv : Z) (is_even : bool) :
  (recovered_y pv xv is_even * recovered_y pv xv is_even) mod pv
  = (candidate_root pv xv * candidate_root pv xv) mod pv.
Proof.
  unfold recovered_y. set (y0 := candidate_root pv xv).
  destruct (Bool.eqb (y0 mod 2 =? 0) is_even); [reflexivity|].
  replace ((pv - y0) * (pv - y0)) with (y0 * y0 + (pv - 2 * y0) * pv) by ring.
  apply Z_mod_plus_full.
Qed.

Lemma candidate_root_square (pv xv yv : Z) :
  Z.prime pv -> pv mod 4 = 3 ->
  (yv * yv) mod pv = (xv ^ 3 + 7) mod pv ->
  (candidate_root pv xv * candidate_root pv xv) mod pv = (xv ^ 3 + 7) mod pv.
Proof.
  intros Hprime H4 Hy. pose proof (Z.prime_ge_2 _ Hprime).
  unfold candidate_root. rewrite Z.add_mod_idemp_l by lia.
  pose proof (candidate_squares pv Hprime H4 yv (xv ^ 3 + 7) Hy) as Hsq.
  cbv zeta in Hsq. rewrite Hsq. exact Hy.
Qed.

(** X3: with a prime modulus congruent to 3 modulo 4, the point decoded from
    a compressed key satisfies the curve equation exactly when some point of
    the curve has the abscissa that was given. *)
Theorem decode_on_curve_iff
        (G : Curve) (cls : pyclass) (b0 : byte) (xs : list byte) :
  Z.prime (p G) -> p G mod 4 = 3 ->
  b0 = Byte.x02 \/ b0 = Byte.x03 ->
  exists q,
    decode G cls (b0 :: xs) = Ok q
    /\ (satisfies_equation G (x q) (y q)
        <-> exists yv, satisfies_equation G (Py.from_bytes xs) yv).
Proof.
  intros Hprime H4 Hb. pose proof (Z.prime_ge_2 _ Hprime).
  eexists. split; [apply decode_compressed; [lia | assumption]|].
  cbn [x y]. unfold satisfies_equation. split.
  - intros H'. eexists. exact H'.
  - intros [yv Hy]. rewrite recovered_square.
    apply (candidate_root_square _ _ yv); assumption.
Qed.

Lemma decode_on_curve_iff_witness :
  exists q,
    decode curve11 PublicKey_cls (Byte.x02 :: rev (le_split 32 2)) = Ok q
    /\ (satisfies_equation curve11 (x q) (y q)
        <-> exists yv,
            satisfies_equation curve11 (Py.from_bytes (rev (le_split 32 2))) yv).
Proof.
  apply (decode_on_curve_iff curve11 PublicKey_cls Byte.x02 (rev (le_split 32 2))).
  - exact prime_11.
  - reflexivity.
  - left. reflexivity.
Defined.

(** A power of a residue vanishes modulo a prime only if the residue does. *)
Lemma prime_divides_power (pv a k : Z) :
  Z.prime pv -> 0 <= k -> (a ^ k) mod pv = 0 -> a mod pv = 0.
Proof.
  intros Hprime Hk. pose proof (Z.prime_ge_2 _ Hprime).
  pattern k. apply natlike_ind; [| |exact Hk].
  - rewrite Z.pow_0_r, Z.mod_1_l by lia. discriminate.
  - intros j Hj IH Hpow. rewrite Z.pow_succ_r in Hpow by exact Hj.
    apply Z.mod_divide in Hpow; [|lia].
    apply (Z.divide_prime_mul _ _ _ Hprime) in Hpow.
    destruct Hpow as [Ha | Hrec].
    + apply Z.mod_divide; [lia | exact Ha].
    + apply IH. apply Z.mod_divide; [lia | exact Hrec].
Qed.

Lemma candidate_root_zero (pv xv : Z) :
  Z.prime pv -> pv mod 4 = 3 ->
  candidate_root pv xv = 0 <-> (xv ^ 3 + 7) mod pv = 0.
Proof.
  intros Hprime H4. pose proof (Z.prime_ge_2 _ Hprime).
  pose proof (quarter_exponent pv H4) as Hq.
  unfold candidate_root. rewrite Z.add_mod_idemp_l by lia. split.
  - intros H0. apply prime_divides_power in H0; [|assumption|lia].
    rewrite Z.mod_mod in H0 by lia. exact H0.
  - intros ->. rewrite Z.pow_0_l by lia. apply Z.mod_0_l. lia.
Qed.

(** X4: with a prime modulus congruent to 3 modulo 4, the ordinate decoded
    from a compressed key lies between 0 and [p]; it is [p] itself, outside
    the range of residues, exactly when the prefix is 0x03 and [x^3 + 7] is
    0 modulo [p]. *)
Theorem decode_ordinate_range
        (G : Curve) (cls : pyclass) (b0 : byte) (xs : list byte) :
  Z.prime (p G) -> p G mod 4 = 3 ->
  b0 = Byte.x02 \/ b0 = Byte.x03 ->
  exists q,
    decode G cls (b0 :: xs) = Ok q
    /\ 0 <= y q <= p G
    /\ (y q = p G <->
        b0 = Byte.x03 /\ (Py.from_bytes xs ^ 3 + 7) mod p G = 0).
Proof.
  intros Hprime H4 Hb. pose proof (Z.prime_ge_2 _ Hprime).
  eexists. split; [apply decode_compressed; [lia | assumption]|].
  cbn [y]. rewrite <- (candidate_root_zero _ _ Hprime H4).
  unfold recovered_y. set (y0 := candidate_root (p G) (Py.from_bytes xs)).
  assert (B : 0 <= y0 < p G) by (apply Z.mod_pos_bound; lia).
  destruct (Z.eqb_spec (y0 mod 2) 0) as [E0|E0];
    destruct Hb as [-> | ->];
    change (byte_is Byte.x02 2) with true;
    change (byte_is Byte.x03 2) with false; cbn [Bool.eqb].
  - split; [lia|]. split; [lia | intros [Hb _]; discriminate Hb].
  - split; [lia|]. split.
    + intros Hy. split; [reflexivity | lia].
    + intros [_ Hz]. lia.
  - split; [lia|]. split; [|intros [Hb _]; discriminate Hb].
    intros Hy. exfalso. apply E0.
    replace y0 with 0 by lia. reflexivity.
  - split; [lia|]. split; [lia|].
    intros [_ Hz]. exfalso. apply E0. rewrite Hz. reflexivity.
Qed.

Lemma decode_ordinate_range_witness :
  exists q,
    decode curve11 PublicKey_cls (Byte.x03 :: rev (le_split 32 5)) = Ok q
    /\ 0 <= y q <= p curve11
    /\ (y q = p curve11 <->
        Byte.x03 = Byte.x03
        /\ (Py.from_bytes (rev (le_split 32 5)) ^ 3 + 7) mod p curve11 = 0).
Proof.
  apply (decode_ordinate_range curve11 PublicKey_cls Byte.x03 (rev (le_split 32 5))).
  - exact prime_11.
  - reflexivity.
  - right. reflexivity.
Defined.

(** The ordinate [p] is reached: on the curve modulo 11, prefix 0x03 and
    abscissa 5 decode to the ordinate 11. *)
Example ordinate_out_of_range :
  decode curve11 PublicKey_cls (Byte.x03 :: rev (le_split 32 5))
  = Ok (mkPoint PublicKey_cls curve11 5 11).
Proof. reflexivity. Qed.

Lemma candidate_root_mod (pv xv : Z) :
  candidate_root pv (xv mod pv) = candidate_root pv xv.
Proof. unfold candidate_root. rewrite (Z.mod_pow_l xv 3 pv). reflexivity. Qed.

(** X5: [decode] never reduces the abscissa of a compressed key: it is
    returned as it was read, and two buffers with the same prefix whose
    abscissas are congruent modulo [p] decode to the same ordinate. *)
Theorem decode_abscissa_not_reduced
        (G : Curve) (cls : pyclass) (b0 : byte) (xs xs' : list byte) :
  0 < p G ->
  b0 = Byte.x02 \/ b0 = Byte.x03 ->
  Py.from_bytes xs mod p G = Py.from_bytes xs' mod p G ->
  exists q q',
    decode G cls (b0 :: xs) = Ok q
    /\ decode G cls (b0 :: xs') = Ok q'
    /\ x q = Py.from_bytes xs
    /\ x q' = Py.from_bytes xs'
    /\ y q = y q'.
Proof.
  intros Hp Hb Hcong. do 2 eexists.
  split; [apply decode_compressed; assumption|].
  split; [apply decode_compressed; assumption|].
  cbn [x y]. repeat split. unfold recovered_y.
  rewrite <- (candidate_root_mod _ (Py.from_bytes xs)), Hcong,
    candidate_root_mod.
  reflexivity.
Qed.

Lemma decode_abscissa_not_reduced_witness :
  exists q q',
    decode secp256k1 PublicKey_cls (Byte.x02 :: rev (le_split 32 1)) = Ok q
    /\ decode secp256k1 PublicKey_cls
         (Byte.x02 :: rev (le_split 32 (p secp256k1 + 1))) = Ok q'
    /\ x q = Py.from_bytes (rev (le_split 32 1))
    /\ x q' = Py.from_bytes (rev (le_split 32 (p secp256k1 + 1)))
    /\ y q = y q'.
Proof.
  apply (decode_abscissa_not_reduced secp256k1 PublicKey_cls Byte.x02).
  - reflexivity.
  - left. reflexivity.
  - vm_compute. reflexivity.
Defined.

Lemma slice_y_more (h : byte) (xb yb extra : list byte) :
  List.length xb = 32%nat -> List.length yb = 32%nat ->
  Py.slice 33 65 (h :: xb ++ yb ++ extra) = yb.
Proof.
  intros Lx Ly. unfold Py.slice. change (65 - 33)%nat with 32%nat.
  change (skipn 33 (h :: xb ++ yb ++ extra)) with (skipn 32 (xb ++ yb ++ extra)).
  assert (E : skipn 32 (xb ++ yb ++ extra) = yb ++ extra).
  { rewrite <- Lx, skipn_app, skipn_all, Nat.sub_diag. reflexivity. }
  rewrite E, <- Ly, firstn_app, Nat.sub_diag, firstn_all. cbn [firstn].
  apply app_nil_r.
Qed.

(** X6: whatever follows the first 65 bytes of an uncompressed key is
    ignored: the buffer decodes, without error, to the point of its first 65
    bytes. *)
Theorem decode_ignores_trailing_bytes
        (G : Curve) (cls : pyclass) (t extra : list byte) :
  List.length t = 64%nat ->
  decode G cls (Byte.x04 :: t ++ extra) = decode G cls (Byte.x04 :: t).
Proof.
  intros L. destruct (split_64 t L) as (Lx & Ly & E).
  set (xb := firstn 32 t) in *. set (yb := skipn 32 t) in *.
  rewrite E, <- app_assoc, !decode_uncompressed.
  rewrite slice_y_more, slice_y, !slice_x by assumption. reflexivity.
Qed.

Lemma decode_ignores_trailing_bytes_witness :
  decode secp256k1 PublicKey_cls
         (Byte.x04 :: repeat Byte.x01 64 ++ [Byte.xff; Byte.xff])
  = decode secp256k1 PublicKey_cls (Byte.x04 :: repeat Byte.x01 64).
Proof.
  apply (decode_ignores_trailing_bytes secp256k1 PublicKey_cls
           (repeat Byte.x01 64) [Byte.xff; Byte.xff]).
  reflexivity.
Defined.

(** X7: an uncompressed key cut short is not rejected either: with at most
    32 bytes after the prefix 0x04, they are all read as [x] and [y] is 0. *)
Theorem decode_short_input (G : Curve) (cls : pyclass) (t : list byte) :
  (List.length t <= 32)%nat ->
  decode G cls (Byte.x04 :: t) = Ok (mkPoint Point_cls G (Py.from_bytes t) 0).
Proof.
  intros L. rewrite decode_uncompressed. unfold Py.slice.
  change (skipn 1 (Byte.x04 :: t)) with t.
  change (skipn 33 (Byte.x04 :: t)) with (skipn 32 t).
  rewrite firstn_all2 by (cbn; lia).
  rewrite (skipn_all2 t) by lia. reflexivity.
Qed.

Lemma decode_short_input_witness :
  decode secp256k1 PublicKey_cls [Byte.x04]
  = Ok (mkPoint Point_cls secp256k1 (Py.from_bytes []) 0).
Proof.
  apply (decode_short_input secp256k1 PublicKey_cls []). cbn. lia.
Defined.

Lemma to_bytes_too_big (n : Z) (len : nat) :
  2 ^ (Z.of_nat len * 8) <= n -> Py.to_bytes n len = Raise OverflowError.
Proof.
  intros Hn. unfold Py.to_bytes.
  assert (0 < 2 ^ (Z.of_nat len * 8)) by (apply Z.pow_pos_nonneg; lia).
  destruct (Z.ltb_spec n 0); [reflexivity|].
  destruct (Z.leb_spec (2 ^ (Z.of_nat len * 8)) n); [reflexivity | lia].
Qed.

(** X8: a compressed key that is too long is not rejected: all the bytes
    after the prefix are read as [x]; once [x] reaches 2^256 the decoded
    point cannot be encoded again, in either form. *)
Theorem decode_long_input_not_encodable
        (G : Curve) (cls : pyclass) (b0 : byte) (t : list byte)
        (compressed : bool) :
  0 < p G ->
  b0 = Byte.x02 \/ b0 = Byte.x03 ->
  2 ^ 256 <= Py.from_bytes t ->
  exists q,
    decode G cls (b0 :: t) = Ok q
    /\ x q = Py.from_bytes t
    /\ encode q compressed = Raise OverflowError.
Proof.
  intros Hp Hb Hbig. eexists.
  split; [apply decode_compressed; assumption|].
  split; [reflexivity|].
  unfold encode. cbn [x y].
  rewrite to_bytes_too_big by exact Hbig.
  destruct compressed; reflexivity.
Qed.

Lemma decode_long_input_not_encodable_witness :
  exists q,
    decode secp256k1 PublicKey_cls (Byte.x02 :: Byte.x01 :: repeat Byte.x00 32)
    = Ok q
    /\ x q = Py.from_bytes (Byte.x01 :: repeat Byte.x00 32)
    /\ encode q true = Raise OverflowError.
Proof.
  apply (decode_long_input_not_encodable secp256k1 PublicKey_cls Byte.x02
           (Byte.x01 :: repeat Byte.x00 32) true).
  - reflexivity.
  - left. reflexivity.
  - vm_compute. congruence.
Defined.

Lemma to_bytes_raises_iff (n : Z) (len : nat) (e : exn) :
  Py.to_bytes n len = Raise e
  <-> e = OverflowError /\ ~ (0 <= n < 2 ^ (Z.of_nat len * 8)).
Proof.
  unfold Py.to_bytes.
  destruct (Z.ltb_spec n 0) as [Hneg|Hpos].
  - split; [|intros [-> _]; reflexivity].
    intros H'. injection H' as <-. split; [reflexivity | lia].
  - destruct (Z.leb_spec (2 ^ (Z.of_nat len * 8)) n) as [Hbig|Hfit].
    + split; [|intros [-> _]; reflexivity].
      intros H'. injection H' as <-. split; [reflexivity | lia].
    + split; [discriminate|]. intros [_ H']. exfalso. apply H'. lia.
Qed.

(** X9: the only way [encode] fails is OverflowError, raised exactly when a
    coordinate it has to write is negative or does not fit in 32 bytes: [x]
    in both forms, [y] in the uncompressed form only (the compressed form
    accepts any [y]). *)
Theorem encode_raises_iff (pk : Point) (compressed : bool) (e : exn) :
  encode pk compressed = Raise e
  <-> e = OverflowError
      /\ (~ (0 <= x pk < 2 ^ 256)
          \/ (compressed = false /\ ~ (0 <= y pk < 2 ^ 256))).
Proof.
  change (2 ^ 256) with (2 ^ (Z.of_nat 32 * 8)).
  unfold encode. destruct compressed.
  - destruct (Py.to_bytes (x pk) 32) as [xb|ex] eqn:Ex; cbn [bind].
    + apply to_bytes_inv in Ex. destruct Ex as [Hx _].
      split; [discriminate|]. intros [_ [H' | [H' _]]];
        [contradiction | discriminate].
    + apply to_bytes_raises_iff in Ex. destruct Ex as [-> Hx].
      split; [intros H'; injection H' as <-; auto | intros [-> _]; reflexivity].
  - destruct (Py.to_bytes (x pk) 32) as [xb|ex] eqn:Ex; cbn [bind].
    + apply to_bytes_inv in Ex. destruct Ex as [Hx _].
      destruct (Py.to_bytes (y pk) 32) as [yb|ey] eqn:Ey; cbn [bind].
      * apply to_bytes_inv in Ey. destruct Ey as [Hy _].
        split; [discriminate|]. intros [_ [H' | [_ H']]]; contradiction.
      * apply to_bytes_raises_iff in Ey. destruct Ey as [-> Hy].
        split; [intros H'; injection H' as <-; auto
               | intros [-> _]; reflexivity].
    + apply to_bytes_raises_iff in Ex. destruct Ex as [-> Hx].
      split; [intros H'; injection H' as <-; auto | intros [-> _]; reflexivity].
Qed.

(** What an encoding determines. *)
Lemma encode_compressed_inv (pk : Point) (b : list byte) :
  encode pk true = Ok b ->
  x pk = Py.from_bytes (tl b)
  /\ (y pk mod 2 =? 0) = byte_is (hd Byte.x00 b) 2.
Proof.
  unfold encode.
  destruct (Py.to_bytes (x pk) 32) as [xb|] eqn:Ex; [|discriminate].
  apply to_bytes_inv in Ex. destruct Ex as (_ & _ & Hx).
  cbn [bind]. intros H'. injection H' as <-.
  destruct (y pk mod 2 =? 0); cbn [app hd tl]; split; auto.
Qed.

(** X10: two keys with the same encoding have the same [x]; in the
    uncompressed form they also have the same [y], in the compressed form
    ordinates of the same parity. *)
Theorem encode_injective (pk pk' : Point) (compressed : bool) (b : list byte) :
  encode pk compressed = Ok b ->
  encode pk' compressed = Ok b ->
  x pk = x pk'
  /\ (if compressed then y pk mod 2 = y pk' mod 2 else y pk = y pk').
Proof.
  destruct compressed; intros E E'.
  - apply encode_compressed_inv in E, E'.
    destruct E as [Hx Hy], E' as [Hx' Hy'].
    split; [congruence|].
    pose proof (Z.mod_pos_bound (y pk) 2 ltac:(lia)).
    pose proof (Z.mod_pos_bound (y pk') 2 ltac:(lia)).
    rewrite <- Hy' in Hy.
    destruct (Z.eqb_spec (y pk mod 2) 0), (Z.eqb_spec (y pk' mod 2) 0);
      try discriminate; lia.
  - apply (encode_uncompressed_inv secp256k1) in E, E'.
    rewrite E in E'. injection E' as Hx Hy. split; assumption.
Qed.

Lemma encode_injective_witness :
  x generator_key = x (mkPoint Point_cls curve11 (x generator_key) 0)
  /\ y generator_key mod 2 = 0 mod 2.
Proof.
  destruct (encode generator_key true) as [b|] eqn:E.
  - apply (encode_injective generator_key
             (mkPoint Point_cls curve11 (x generator_key) 0) true b E).
    rewrite <- E. reflexivity.
  - exfalso. vm_compute in E. discriminate.
Defined.

(** X11: with an odd modulus, the compressed encodings of [(x, y)] and of
    [(x, p - y)] carry the same 32 bytes of [x] after opposite prefixes. *)
Theorem encode_opposite_prefix (G : Curve) (pk : Point) :
  p G mod 2 = 1 ->
  0 <= x pk < 2 ^ 256 ->
  exists xb,
    (encode pk true = Ok (Byte.x02 :: xb)
     /\ encode (mkPoint (class_of pk) (curve pk) (x pk) (p G - y pk)) true
        = Ok (Byte.x03 :: xb))
    \/ (encode pk true = Ok (Byte.x03 :: xb)
        /\ encode (mkPoint (class_of pk) (curve pk) (x pk) (p G - y pk)) true
           = Ok (Byte.x02 :: xb)).
Proof.
  intros Hodd Hx. change (2 ^ 256) with (2 ^ (Z.of_nat 32 * 8)) in Hx.
  exists (rev (le_split 32 (x pk))). unfold encode. cbn [x y].
  rewrite to_bytes_ok by exact Hx. cbn [bind app].
  assert (Hflip : (p G - y pk) mod 2 = (1 - y pk mod 2) mod 2).
  { rewrite Zminus_mod, Hodd. reflexivity. }
  pose proof (Z.mod_pos_bound (y pk) 2 ltac:(lia)) as B.
  rewrite Hflip.
  destruct (Z.eqb_spec (y pk mod 2) 0) as [E0|E0].
  - left. rewrite E0. split; reflexivity.
  - right. replace (y pk mod 2) with 1 by lia. split; reflexivity.
Qed.

Lemma encode_opposite_prefix_witness :
  exists xb,
    (encode generator_key true = Ok (Byte.x02 :: xb)
     /\ encode (mkPoint (class_of generator_key) (curve generator_key)
                  (x generator_key) (p secp256k1 - y generator_key)) true
        = Ok (Byte.x03 :: xb))
    \/ (encode generator_key true = Ok (Byte.x03 :: xb)
        /\ encode (mkPoint (class_of generator_key) (curve generator_key)
                     (x generator_key) (p secp256k1 - y generator_key)) true
           = Ok (Byte.x02 :: xb)).
Proof.
  apply (encode_opposite_prefix secp256k1 generator_key).
  - reflexivity.
  - vm_compute. split; congruence.
Defined.

(** * Further properties of the secret keys *)

Lemma gen_secret_key_os_returns_witness :
  returns (fun b => b) counting_world 10 "os"%string start
          (Ok (Py.from_bytes (urandom counting_world (n_urandom start + 1)),
               mkCursor (S (n_urandom start + 1)) (n_stdin start) (n_clock start))).
Proof.
  apply (gen_secret_key_os_returns (fun b => b) counting_world 10 start 1).
  - intros j Hj. assert (j = 0%nat) as -> by lia. vm_compute. intros [H' _].
    apply H'. reflexivity.
  - vm_compute. split; congruence.
Defined.

(** As long as the draws are rejected the loop goes on. *)
Lemma sample_os_all_rejected (w : World) (n : Z) :
  forall fuel c,
    (forall j, (j < fuel)%nat ->
               ~ (1 <= Py.from_bytes (urandom w (n_urandom c + j)) < n)) ->
    sample fuel (random_bytes_os w) n c = None.
Proof.
  induction fuel as [|fuel IH]; intros c Hrej; [reflexivity|].
  cbn [sample random_bytes_os os_urandom].
  pose proof (Hrej 0%nat ltac:(lia)) as H0. rewrite Nat.add_0_r in H0.
  destruct (Z.leb_spec 1 (Py.from_bytes (urandom w (n_urandom c))));
    destruct (Z.ltb_spec (Py.from_bytes (urandom w (n_urandom c))) n);
    cbn [andb]; try lia;
    (apply IH; intros j Hj; cbn [n_urandom];
     rewrite Nat.add_succ_comm; apply Hrej; lia).
Qed.

(** X13: with the operating system source, [gen_secret_key] never returns
    when every draw from the cursor on lies outside [1, n): no error, no
    value, the loop just goes on. *)
Theorem gen_secret_key_os_loops
        (sha256 : list byte -> list byte) (w : World) (n : Z) (c : Cursor) :
  (forall j, ~ (1 <= Py.from_bytes (urandom w (n_urandom c + j)) < n)) ->
  loops_forever sha256 w n "os"%string c.
Proof.
  intros Hrej fuel.
  change (gen_secret_key sha256 w fuel n "os"%string c)
    with (sample fuel (random_bytes_os w) n c).
  apply sample_os_all_rejected. intros j _. apply Hrej.
Qed.

Lemma gen_secret_key_os_loops_witness :
  loops_forever (fun b => b) (mkWorld (fun _ => []) (fun _ => None) (fun _ => 0))
                secp256k1_order "os"%string start.
Proof.
  apply (gen_secret_key_os_loops (fun b => b)
           (mkWorld (fun _ => []) (fun _ => None) (fun _ => 0))
           secp256k1_order start).
  intros j [H' _]. apply H'. reflexivity.
Defined.

(** X14: an upper bound of 1 or less leaves no valid key: [gen_secret_key]
    returns a key with no source, and with the operating system source or the
    fixed test vector it loops forever instead of failing. *)
Theorem gen_secret_key_small_bound
        (sha256 : list byte -> list byte) (w : World) (n : Z) (c : Cursor) :
  n <= 1 ->
  (forall source k c', ~ returns sha256 w n source c (Ok (k, c')))
  /\ loops_forever sha256 w n "os"%string c
  /\ loops_forever sha256 w n "mastering"%string c.
Proof.
  intros Hn. split; [|split].
  - intros source k c' [fuel H']. unfold gen_secret_key in H'.
    destruct (negb (recognized source)); [discriminate|].
    destruct (lookup source (bytes_fns sha256 w)) as [f|]; [|discriminate].
    apply sample_accepts in H'. destruct H' as [H' _]. lia.
  - intros fuel.
    change (gen_secret_key sha256 w fuel n "os"%string c)
      with (sample fuel (random_bytes_os w) n c).
    apply sample_os_all_rejected. intros j _. lia.
  - intros fuel. destruct mastering_bytes_constant as [bs [Hbs Hf]].
    rewrite gen_secret_key_mastering_unfold.
    apply (sample_constant_rejected _ bs n Hf). lia.
Qed.

Lemma gen_secret_key_small_bound_witness :
  (forall source k c',
      ~ returns (fun b => b) counting_world 1 source start (Ok (k, c')))
  /\ loops_forever (fun b => b) counting_world 1 "os"%string start
  /\ loops_forever (fun b => b) counting_world 1 "mastering"%string start.
Proof.
  apply (gen_secret_key_small_bound (fun b => b) counting_world 1 start). lia.
Defined.

(** ** The interactive source *)

Lemma string_app_assoc (a b c : string) :
  ((a ++ b) ++ c = a ++ (b ++ c))%string.
Proof. induction a as [|ch a IH]; cbn; [reflexivity | rewrite IH; reflexivity]. Qed.

Lemma string_app_nil_r (a : string) : (a ++ "")%string = a.
Proof. induction a as [|ch a IH]; cbn; [reflexivity | rewrite IH; reflexivity]. Qed.

Lemma string_app_inv_head (a b c : string) :
  (a ++ b = a ++ c)%string -> b = c.
Proof.
  induction a as [|ch a IH]; cbn; intros H'; [exact H'|].
  injection H' as H'. apply IH. exact H'.
Qed.

Lemma is_ascii_app (a b : string) :
  is_ascii (a ++ b) = is_ascii a && is_ascii b.
Proof.
  induction a as [|ch a IH]; cbn [is_ascii String.append]; [reflexivity|].
  rewrite IH. apply Bool.andb_assoc.
Qed.

Lemma is_ascii_uint (d : Decimal.uint) :
  is_ascii (DecimalString.NilEmpty.string_of_uint d) = true.
Proof. induction d; cbn; auto. Qed.

Lemma is_ascii_str (t : Z) : is_ascii (Py.str t) = true.
Proof.
  unfold Py.str. destruct (Z.to_int t) as [d|d]; cbn [DecimalString.NilZero.string_of_int];
    destruct d; cbn [DecimalString.NilZero.string_of_uint is_ascii];
    try reflexivity;
    change (N_of_ascii "-" <? 128)%N with true; cbn [andb];
    try reflexivity;
    apply (is_ascii_uint (_ d)).
Qed.

(** [encode('ascii')] in closed form. *)
Lemma encode_ascii_eq (s : string) :
  Py.encode_ascii s
  = if is_ascii s then Ok (ascii_bytes s) else Raise UnicodeEncodeError.
Proof.
  induction s as [|ch s IH]; [reflexivity|].
  cbn [Py.encode_ascii is_ascii]. rewrite IH.
  destruct (N_of_ascii ch <? 128)%N; [|reflexivity].
  destruct (is_ascii s); reflexivity.
Qed.

Section InteractiveSource.

Variable w : World.

(** The loop of [random_bytes_user] reads [todo] lines and [todo] clock
    readings and appends their text. *)
Lemma collect_words_ok (todo : nat) :
  forall i entropy c m c',
    collect_words w i todo entropy c = Ok (m, c') ->
    m = (entropy ++ words_text w c todo)%string
    /\ c' = after_words c todo
    /\ forall k, (k < todo)%nat ->
                 exists line, stdin w (k + n_stdin c) = Some line.
Proof.
  induction todo as [|todo IH]; intros i entropy c m c' H'.
  - injection H' as <- <-. split; [|split].
    + cbn [words_text]. symmetry. apply string_app_nil_r.
    + destruct c. reflexivity.
    + intros k Hk. lia.
  - cbn [collect_words] in H'. unfold mbind, input, time_micros in H'.
    destruct (stdin w (n_stdin c)) as [line|] eqn:El; [|discriminate].
    apply IH in H'. destruct H' as (Hm & Hc & Hl).
    cbn [n_stdin n_clock n_urandom] in *. split; [|split].
    + rewrite Hm. cbn [words_text]. rewrite El.
      rewrite !string_app_assoc. reflexivity.
    + rewrite Hc. unfold after_words. cbn [n_stdin n_clock n_urandom].
      rewrite <- !Nat.add_succ_comm. reflexivity.
    + intros [|k] Hk; [exists line; exact El|].
      destruct (Hl k ltac:(lia)) as [l Hk'].
      exists l. rewrite <- Hk'. f_equal. lia.
Qed.

Lemma collect_words_eof (todo : nat) :
  forall i entropy c e,
    collect_words w i todo entropy c = Raise e ->
    e = EOFError
    /\ exists k, (k < todo)%nat /\ stdin w (k + n_stdin c) = None.
Proof.
  induction todo as [|todo IH]; intros i entropy c e H'; [discriminate|].
  cbn [collect_words] in H'. unfold mbind, input, time_micros in H'.
  destruct (stdin w (n_stdin c)) as [line|] eqn:El.
  - apply IH in H'. destruct H' as (-> & k & Hk & Hnone).
    cbn [n_stdin] in Hnone. split; [reflexivity|].
    exists (S k). split; [lia|]. rewrite <- Hnone. f_equal. lia.
  - injection H' as <-. split; [reflexivity|]. exists 0%nat. split; [lia | exact El].
Qed.

(** The gathered text is ASCII exactly when the lines are. *)
Lemma words_text_ascii (todo : nat) :
  forall c,
    (forall k, (k < todo)%nat -> exists line, stdin w (k + n_stdin c) = Some line) ->
    is_ascii (words_text w c todo) = true
    <-> forall k line, (k < todo)%nat ->
                       stdin w (k + n_stdin c) = Some line -> is_ascii line = true.
Proof.
  induction todo as [|todo IH]; intros c Hl.
  - split; [intros _ k line Hk; lia | reflexivity].
  - destruct (Hl 0%nat ltac:(lia)) as [l0 E0]. cbn [Nat.add] in E0.
    cbn [words_text]. rewrite E0.
    rewrite !is_ascii_app, is_ascii_str. cbn [is_ascii].
    change (N_of_ascii "|" <? 128)%N with true. cbn [andb].
    assert (Hl' : forall k, (k < todo)%nat ->
                   exists line, stdin w (k + n_stdin (after_words c 1)) = Some line).
    { intros k Hk. destruct (Hl (S k) ltac:(lia)) as [l E]. exists l.
      rewrite <- E. cbn [after_words n_stdin]. f_equal. lia. }
    rewrite Bool.andb_true_iff, (IH _ Hl'). split.
    + intros [H0 Hrest] [|k] line Hk E.
      * cbn [Nat.add] in E. congruence.
      * apply (Hrest k line ltac:(lia)). rewrite <- E.
        cbn [after_words n_stdin]. f_equal. lia.
    + intros Hall. split; [apply (Hall 0%nat l0 ltac:(lia) E0)|].
      intros k line Hk E. apply (Hall (S k) line ltac:(lia)).
      rewrite <- E. cbn [after_words n_stdin]. f_equal. lia.
Qed.

Lemma words_text_not_ascii (todo : nat) :
  forall c,
    (forall k, (k < todo)%nat -> exists line, stdin w (k + n_stdin c) = Some line) ->
    is_ascii (words_text w c todo) = false ->
    exists k line, (k < todo)%nat
                   /\ stdin w (k + n_stdin c) = Some line
                   /\ is_ascii line = false.
Proof.
  induction todo as [|todo IH]; intros c Hl Hna; [discriminate|].
  destruct (Hl 0%nat ltac:(lia)) as [l0 E0]. cbn [Nat.add] in E0.
  cbn [words_text] in Hna. rewrite E0 in Hna.
  rewrite !is_ascii_app, is_ascii_str in Hna. cbn [is_ascii] in Hna.
  change (N_of_ascii "|" <? 128)%N with true in Hna. cbn [andb] in Hna.
  destruct (is_ascii l0) eqn:A0.
  - cbn [andb] in Hna. apply IH in Hna.
    + destruct Hna as (k & line & Hk & E & A). exists (S k), line.
      split; [lia|]. split; [|exact A]. rewrite <- E.
      cbn [after_words n_stdin]. f_equal. lia.
    + intros k Hk. destruct (Hl (S k) ltac:(lia)) as [l E]. exists l.
      rewrite <- E. cbn [after_words n_stdin]. f_equal. lia.
  - exists 0%nat, l0. split; [lia|]. split; [exact E0 | exact A0].
Qed.

End InteractiveSource.

(** X15: one call of the interactive source reads exactly five lines and
    five clock readings and hashes the ASCII bytes of their text; it fails
    with EOFError exactly when one of the five lines is missing, and with
    UnicodeEncodeError exactly when they are all there and one of them is not
    ASCII. *)
Theorem random_bytes_user_outcome
        (sha256 : list byte -> list byte) (w : World) (c : Cursor) :
  match random_bytes_user sha256 w c with
  | Ok (bs, c') =>
      bs = sha256 (ascii_bytes (words_text w c 5))
      /\ c' = after_words c 5
      /\ forall k, (k < 5)%nat ->
                   exists line, stdin w (k + n_stdin c) = Some line
                                /\ is_ascii line = true
  | Raise e =>
      (e = EOFError
       /\ exists k, (k < 5)%nat /\ stdin w (k + n_stdin c) = None)
      \/ (e = UnicodeEncodeError
          /\ (forall k, (k < 5)%nat ->
                        exists line, stdin w (k + n_stdin c) = Some line)
          /\ exists k line, (k < 5)%nat
                            /\ stdin w (k + n_stdin c) = Some line
                            /\ is_ascii line = false)
  end.
Proof.
  unfold random_bytes_user, mbind, lift, ret.
  destruct (collect_words w 0 5 "" c) as [[m c1]|e] eqn:E.
  - apply collect_words_ok in E. destruct E as (Hm & Hc & Hl).
    cbn [String.append] in Hm. subst m c1.
    rewrite encode_ascii_eq.
    destruct (is_ascii (words_text w c 5)) eqn:A.
    + split; [reflexivity|]. split; [reflexivity|].
      intros k Hk. destruct (Hl k Hk) as [line El]. exists line.
      split; [exact El|].
      apply (proj1 (words_text_ascii w 5 c Hl) A k line Hk El).
    + right. split; [reflexivity|]. split; [exact Hl|].
      apply words_text_not_ascii; assumption.
  - left. apply collect_words_eof in E. exact E.
Qed.

Lemma after_words_add (c : Cursor) (a b : nat) :
  after_words (after_words c a) b = after_words c (a + b).
Proof.
  unfold after_words. cbn [n_urandom n_stdin n_clock].
  f_equal; lia.
Qed.

Lemma random_bytes_user_cursor
      (sha256 : list byte -> list byte) (w : World) (c c' : Cursor)
      (bs : list byte) :
  random_bytes_user sha256 w c = Ok (bs, c') -> c' = after_words c 5.
Proof.
  unfold random_bytes_user, mbind, lift, ret.
  destruct (collect_words w 0 5 "" c) as [[m c1]|e] eqn:E; [|discriminate].
  apply collect_words_ok in E. destruct E as (_ & -> & _).
  destruct (Py.encode_ascii m); [|discriminate].
  intros H'. injection H' as _ <-. reflexivity.
Qed.

Lemma sample_user_cursor
      (sha256 : list byte -> list byte) (w : World) (n : Z) :
  forall fuel c k c',
    sample fuel (random_bytes_user sha256 w) n c = Some (Ok (k, c')) ->
    exists attempts,
      (1 <= attempts <= fuel)%nat /\ c' = after_words c (5 * attempts).
Proof.
  induction fuel as [|fuel IH]; intros c k c' H'; [discriminate|].
  cbn [sample] in H'.
  destruct (random_bytes_user sha256 w c) as [[bs c1]|e] eqn:E; [|discriminate].
  apply random_bytes_user_cursor in E. subst c1.
  destruct ((1 <=? Py.from_bytes bs) && (Py.from_bytes bs <? n)).
  - injection H' as _ <-. exists 1%nat. split; [lia | reflexivity].
  - apply IH in H'. destruct H' as (a & Ha & ->).
    exists (S a). split; [lia|]. rewrite after_words_add. f_equal. lia.
Qed.

(** X16: with the interactive source, every rejected attempt costs the user
    five more words: when [gen_secret_key] returns, it has read five lines
    and five clock readings per attempt, for at least one attempt, and no
    byte of the operating system. *)
Theorem gen_secret_key_user_reads
        (sha256 : list byte -> list byte) (w : World)
        (n : Z) (c c' : Cursor) (k : Z) :
  returns sha256 w n "user"%string c (Ok (k, c')) ->
  exists attempts,
    (1 <= attempts)%nat /\ c' = after_words c (5 * attempts).
Proof.
  intros [fuel H'].
  change (gen_secret_key sha256 w fuel n "user"%string c)
    with (sample fuel (random_bytes_user sha256 w) n c) in H'.
  apply sample_user_cursor in H'. destruct H' as (a & Ha & ->).
  exists a. split; [lia | reflexivity].
Qed.

Lemma gen_secret_key_user_reads_witness :
  exists attempts,
    (1 <= attempts)%nat /\ mkCursor 0 10 10 = after_words start (5 * attempts).
Proof.
  apply (gen_secret_key_user_reads second_attempt counting_world 2 start
           (mkCursor 0 10 10) 1).
  exists 2%nat. vm_compute. reflexivity.
Defined.

Lemma no_bar_uint (d : Decimal.uint) :
  no_bar (DecimalString.NilEmpty.string_of_uint d) = true.
Proof. induction d; cbn; auto. Qed.

Lemma no_bar_str (t : Z) : no_bar (Py.str t) = true.
Proof.
  unfold Py.str.
  destruct (Z.to_int t) as [d|d]; cbn [DecimalString.NilZero.string_of_int];
    destruct d; cbn [DecimalString.NilZero.string_of_uint no_bar];
    try reflexivity;
    change (negb (Ascii.eqb "-" "|")) with true; cbn [andb];
    try reflexivity;
    apply (no_bar_uint (_ d)).
Qed.

(** The first bar of a text ends its first piece. *)
Lemma bar_split (a a' r r' : string) :
  no_bar a = true -> no_bar a' = true ->
  (a ++ "|" ++ r = a' ++ "|" ++ r')%string ->
  a = a' /\ r = r'.
Proof.
  revert a'. induction a as [|ch a IH]; intros [|ch' a'] Ha Ha' E;
    cbn [String.append no_bar] in *.
  - injection E as E. split; [reflexivity | exact E].
  - injection E as Ech _. subst ch'.
    rewrite Ascii.eqb_refl in Ha'. discriminate.
  - injection E as Ech _. subst ch.
    rewrite Ascii.eqb_refl in Ha. discriminate.
  - injection E as Ech E. subst ch'.
    apply Bool.andb_true_iff in Ha, Ha'.
    destruct (IH a' (proj2 Ha) (proj2 Ha') E) as [-> ->].
    split; reflexivity.
Qed.

Lemma str_inj (t t' : Z) : Py.str t = Py.str t' -> t = t'.
Proof.
  unfold Py.str. intros E.
  apply (f_equal DecimalString.NilZero.int_of_string) in E.
  assert (Hn : forall z, Z.to_int z <> Decimal.Pos Decimal.Nil
                         /\ Z.to_int z <> Decimal.Neg Decimal.Nil).
  { intros [|q|q]; cbn [Z.to_int]; split; try discriminate;
      intros H'; injection H' as H'; exact (DecimalPos.Unsigned.to_uint_nonnil q H'). }
  rewrite !DecimalString.NilZero.isi in E by apply Hn.
  injection E as E. apply DecimalZ.to_int_inj. exact E.
Qed.

Lemma ascii_bytes_inj (s s' : string) :
  ascii_bytes s = ascii_bytes s' -> s = s'.
Proof.
  unfold ascii_bytes. revert s'.
  induction s as [|ch s IH]; intros [|ch' s'] E; cbn in E;
    try discriminate; [reflexivity|].
  injection E as Ech E.
  apply (f_equal ascii_of_byte) in Ech.
  rewrite !ascii_of_byte_of_ascii in Ech. subst ch'.
  f_equal. apply IH. exact E.
Qed.

(** Two worlds with the same lines gather the same text only if their clocks
    agree on every reading. *)
Lemma words_text_inj (w1 w2 : World) (todo : nat) :
  forall c,
    (forall k, (k < todo)%nat ->
               stdin w1 (k + n_stdin c) = stdin w2 (k + n_stdin c)) ->
    words_text w1 c todo = words_text w2 c todo ->
    forall k, (k < todo)%nat ->
              clock w1 (k + n_clock c) = clock w2 (k + n_clock c).
Proof.
  induction todo as [|todo IH]; intros c Hl E k Hk; [lia|].
  cbn [words_text] in E.
  pose proof (Hl 0%nat ltac:(lia)) as H0. cbn [Nat.add] in H0.
  rewrite <- H0 in E.
  apply string_app_inv_head in E. cbn [String.append] in E.
  injection E as E.
  apply (bar_split _ _ _ _ (no_bar_str _) (no_bar_str _)) in E.
  destruct E as [Et Erest]. apply str_inj in Et.
  destruct k as [|k]; [exact Et|].
  assert (Hk' : (k < todo)%nat) by lia.
  pose proof (IH (after_words c 1)) as IH'.
  cbn [after_words n_stdin n_clock] in IH'.
  replace (S k + n_clock c)%nat with (k + (1 + n_clock c))%nat by lia.
  apply IH'; [|exact Erest | exact Hk'].
  intros j Hj.
  replace (j + (1 + n_stdin c))%nat with (S j + n_stdin c)%nat by lia.
  apply Hl. lia.
Qed.

Lemma random_bytes_user_ok
      (sha256 : list byte -> list byte) (w : World) (c c' : Cursor)
      (bs : list byte) :
  random_bytes_user sha256 w c = Ok (bs, c') ->
  bs = sha256 (ascii_bytes (words_text w c 5)).
Proof.
  unfold random_bytes_user, mbind, lift, ret.
  destruct (collect_words w 0 5 "" c) as [[m c1]|e] eqn:E; [|discriminate].
  apply collect_words_ok in E. destruct E as (-> & _ & _).
  cbn [String.append]. rewrite encode_ascii_eq.
  destruct (is_ascii (words_text w c 5)); [|discriminate].
  intros H'. injection H' as <- _. reflexivity.
Qed.

(** X17: the clock is part of the entropy of the interactive source: two
    runs that read the same five words but differ in one of the five clock
    readings hand different messages to the hash. *)
Theorem random_bytes_user_clock
        (sha256 : list byte -> list byte) (w1 w2 : World)
        (c c1 c2 : Cursor) (b1 b2 : list byte) :
  random_bytes_user sha256 w1 c = Ok (b1, c1) ->
  random_bytes_user sha256 w2 c = Ok (b2, c2) ->
  (forall k, (k < 5)%nat ->
             stdin w1 (k + n_stdin c) = stdin w2 (k + n_stdin c)) ->
  (exists k, (k < 5)%nat
             /\ clock w1 (k + n_clock c) <> clock w2 (k + n_clock c)) ->
  exists m1 m2,
    b1 = sha256 m1 /\ m1 = ascii_bytes (words_text w1 c 5)
    /\ b2 = sha256 m2 /\ m2 = ascii_bytes (words_text w2 c 5)
    /\ m1 <> m2.
Proof.
  intros E1 E2 Hl (k & Hk & Hdiff).
  apply random_bytes_user_ok in E1, E2.
  do 2 eexists. repeat split; try eassumption.
  intros Hm. apply ascii_bytes_inj in Hm.
  apply Hdiff. apply (words_text_inj w1 w2 5 c Hl Hm k Hk).
Qed.

Lemma random_bytes_user_clock_witness :
  exists m1 m2,
    sha256_stub_result = second_attempt m1
    /\ m1 = ascii_bytes (words_text counting_world start 5)
    /\ sha256_stub_result = second_attempt m2
    /\ m2 = ascii_bytes (words_text later_world start 5)
    /\ m1 <> m2.
Proof.
  apply (random_bytes_user_clock second_attempt counting_world later_world
           start (after_words start 5) (after_words start 5)).
  - vm_compute. reflexivity.
  - vm_compute. reflexivity.
  - intros k Hk. reflexivity.
  - exists 0%nat. split; [lia|]. cbn. lia.
Defined.

(** ** Key pairs *)

(** X18: [gen_key_pair] returns what [gen_secret_key] returned for the order
    of the group, a secret key in [1, n), together with a [PublicKey] that has
    the curve and coordinates of the point [sk * G]; its errors are those of
    [gen_secret_key] and of that multiplication, and it loops exactly when
    [gen_secret_key] does. *)
Theorem gen_key_pair_outcome
        (G_order : Z) (G_times : Z -> result Point)
        (int_base16 : string -> result Z)
        (sha256 : list byte -> list byte) (w : World)
        (fuel : nat) (source : string) (c : Cursor) :
  (forall sk pk c',
      gen_key_pair G_order G_times int_base16 sha256 w fuel source c
      = Some (Ok ((sk, pk), c')) ->
      gen_secret_key sha256 w fuel G_order source c = Some (Ok (sk, c'))
      /\ 1 <= sk < G_order
      /\ class_of pk = PublicKey_cls
      /\ exists pt, G_times sk = Ok pt /\ same_point pk pt)
  /\ (forall e,
        gen_key_pair G_order G_times int_base16 sha256 w fuel source c
        = Some (Raise e) <->
        gen_secret_key sha256 w fuel G_order source c = Some (Raise e)
        \/ exists sk c',
            gen_secret_key sha256 w fuel G_order source c = Some (Ok (sk, c'))
            /\ G_times sk = Raise e)
  /\ (gen_key_pair G_order G_times int_base16 sha256 w fuel source c = None <->
      gen_secret_key sha256 w fuel G_order source c = None).
Proof.
  unfold gen_key_pair, from_sk.
  destruct (gen_secret_key sha256 w fuel G_order source c)
    as [[[sk0 c0]|e0]|] eqn:E.
  - assert (Hrange : 1 <= sk0 < G_order).
    { unfold gen_secret_key in E.
      destruct (negb (recognized source)); [discriminate|].
      destruct (lookup source (bytes_fns sha256 w)); [|discriminate].
      apply sample_accepts in E. apply E. }
    cbn [bind]. destruct (G_times sk0) as [pt|e1] eqn:Et; cbn [bind].
    + split; [|split].
      * intros sk pk c' H'. injection H' as <- <- <-.
        split; [reflexivity|]. split; [exact Hrange|].
        split; [reflexivity|]. exists pt.
        split; [exact Et | repeat split].
      * intros e. split; [discriminate|].
        intros [H' | (sk & c' & H' & Hr)]; [discriminate|].
        injection H' as <- <-. congruence.
      * split; discriminate.
    + split; [|split].
      * intros sk pk c' H'. discriminate.
      * intros e. split.
        -- intros H'. injection H' as <-. right. exists sk0, c0. auto.
        -- intros [H' | (sk & c' & H' & Hr)]; [discriminate|].
           injection H' as <- <-. congruence.
      * split; discriminate.
  - split; [|split].
    + intros sk pk c' H'. discriminate.
    + intros e. split.
      * intros H'. injection H' as <-. left. reflexivity.
      * intros [H' | (sk & c' & H' & _)]; [|discriminate].
        injection H' as <-. reflexivity.
    + split; discriminate.
  - split; [|split].
    + intros sk pk c' H'. discriminate.
    + intros e. split; [discriminate|].
      intros [H' | (sk & c' & H' & _)]; discriminate.
    + split; reflexivity.
Qed.

(** A run of [gen_key_pair] on the fixed test vector, with a stand-in for the
    scalar multiplication. *)
Example gen_key_pair_mastering :
  gen_key_pair secp256k1_order
               (fun k => Ok (mkPoint Point_cls secp256k1 k (k + 1)))
               (fun _ => Raise ValueError)
               (fun b => b) counting_world 1 "mastering"%string start
  = Some (Ok ((mastering_sk,
               mkPoint PublicKey_cls secp256k1 mastering_sk (mastering_sk + 1)),
              start)).
Proof. vm_compute. reflexivity. Qed.

(** X19: an error of the interactive source is not retried: when one of the
    next five lines is missing, [gen_secret_key] with that source raises
    EOFError at its first iteration, whatever the bound. *)
Theorem gen_secret_key_user_eof
        (sha256 : list byte -> list byte) (w : World)
        (fuel : nat) (n : Z) (c : Cursor) :
  (exists k, (k < 5)%nat /\ stdin w (k + n_stdin c) = None) ->
  gen_secret_key sha256 w (S fuel) n "user"%string c = Some (Raise EOFError).
Proof.
  intros (k & Hk & Hnone).
  change (gen_secret_key sha256 w (S fuel) n "user"%string c)
    with (sample (S fuel) (random_bytes_user sha256 w) n c).
  cbn [sample]. unfold random_bytes_user, mbind.
  destruct (collect_words w 0 5 "" c) as [[m c1]|e] eqn:E.
  - apply collect_words_ok in E. destruct E as (_ & _ & Hl).
    destruct (Hl k Hk) as [line El]. congruence.
  - apply collect_words_eof in E. destruct E as [-> _]. reflexivity.
Qed.

Lemma gen_secret_key_user_eof_witness :
  gen_secret_key (fun b => b)
                 (mkWorld (fun _ => [])
                          (fun i => if (i <? 3)%nat then Some "word"%string else None)
                          (fun _ => 0))
                 1 secp256k1_order "user"%string start
  = Some (Raise EOFError).
Proof.
  apply (gen_secret_key_user_eof (fun b => b)
           (mkWorld (fun _ => [])
                    (fun i => if (i <? 3)%nat then Some "word"%string else None)
                    (fun _ => 0))
           0 secp256k1_order start).
  exists 3%nat. split; [lia | reflexivity].
Defined.
